(** * OGC API - EDR Part 3 profile generator: the generation engine

    A shallow embedding of [src/create_profile.py] and [src/query_types.py].
    Python [str] values are modelled as byte strings ([string]); the case
    conversions below act on the ASCII letters only, which is what the
    rule tables and every identifier of the generator are made of.
    Python dictionaries whose iteration order is observable are association
    lists in insertion order.  Code that can raise ([str.format], list
    indexing, missing dictionary keys) lives in the [result] monad. *)

From Stdlib Require Import String Ascii List Bool Arith Lia.
Import ListNotations.
Open Scope list_scope.
Open Scope string_scope.

(* ------------------------------------------------------------------ *)
(** ** Exceptions *)

Inductive exn : Type :=
| KeyError (key : string)
| ValueError (msg : string)
| IndexError (msg : string).

Inductive result (A : Type) : Type :=
| Ok (a : A)
| Raise (e : exn).

Arguments Ok {A} a.
Arguments Raise {A} e.

Definition bind {A B : Type} (m : result A) (k : A -> result B) : result B :=
  match m with
  | Ok a => k a
  | Raise e => Raise e
  end.

Notation "x <- m ;; k" := (bind m (fun x => k))
  (at level 61, m at next level, right associativity).

(** A list comprehension whose body may raise: evaluated left to right,
    the first exception aborts it. *)
Fixpoint mapM {A B : Type} (f : A -> result B) (l : list A) : result (list B) :=
  match l with
  | [] => Ok []
  | a :: l' => b <- f a ;; bs <- mapM f l' ;; Ok (b :: bs)
  end.

(* ------------------------------------------------------------------ *)
(** ** Python string methods *)

Module PyStr.

Definition is_upper (c : ascii) : bool :=
  Nat.leb 65 (nat_of_ascii c) && Nat.leb (nat_of_ascii c) 90.

Definition is_lower (c : ascii) : bool :=
  Nat.leb 97 (nat_of_ascii c) && Nat.leb (nat_of_ascii c) 122.

Definition is_cased (c : ascii) : bool := is_upper c || is_lower c.

Definition lower_char (c : ascii) : ascii :=
  if is_upper c then ascii_of_nat (nat_of_ascii c + 32) else c.

Definition upper_char (c : ascii) : ascii :=
  if is_lower c then ascii_of_nat (nat_of_ascii c - 32) else c.

(** [s.lower()] *)
Fixpoint lower (s : string) : string :=
  match s with
  | "" => ""
  | String c s' => String (lower_char c) (lower s')
  end.

(** [s.title()]: a letter that follows a letter is lowercased, any other
    letter is uppercased. *)
Fixpoint title_aux (prev_cased : bool) (s : string) : string :=
  match s with
  | "" => ""
  | String c s' =>
      String (if prev_cased then lower_char c else upper_char c)
             (title_aux (is_cased c) s')
  end.

Definition title (s : string) : string := title_aux false s.

(** [old] occurs in [s] at offset 0. *)
Definition startswith (old s : string) : bool := prefix old s.

(** Left-to-right scan for non-overlapping occurrences of a non-empty
    [old]; [skip] counts the characters of a matched occurrence that are
    still to be consumed. *)
Fixpoint replace_aux (old new : string) (skip : nat) (s : string) : string :=
  match s with
  | "" => ""
  | String c s' =>
      match skip with
      | S k => replace_aux old new k s'
      | O =>
          if startswith old s
          then new ++ replace_aux old new (String.length old - 1) s'
          else String c (replace_aux old new 0 s')
      end
  end.

Fixpoint intersperse (new s : string) : string :=
  match s with
  | "" => ""
  | String c s' => String c (new ++ intersperse new s')
  end.

(** [s.replace(old, new)] *)
Definition replace (old new s : string) : string :=
  match old with
  | "" => new ++ intersperse new s
  | _ => replace_aux old new 0 s
  end.

(** [sub in s] *)
Fixpoint contains (sub s : string) : bool :=
  match s with
  | "" => startswith sub ""
  | String _ s' => startswith sub s || contains sub s'
  end.

(** [cur] is the piece being read. *)
Fixpoint split_aux (sep : string) (skip : nat) (cur : string) (s : string)
  : list string :=
  match s with
  | "" => [cur]
  | String c s' =>
      match skip with
      | S k => split_aux sep k cur s'
      | O =>
          if startswith sep s
          then cur :: split_aux sep (String.length sep - 1) "" s'
          else split_aux sep 0 (cur ++ String c "") s'
      end
  end.

(** [s.split(sep)]; Python raises [ValueError] on an empty separator. *)
Definition split (sep s : string) : result (list string) :=
  match sep with
  | "" => Raise (ValueError "empty separator")
  | _ => Ok (split_aux sep 0 "" s)
  end.

(** [sep.join(l)] *)
Fixpoint join (sep : string) (l : list string) : string :=
  match l with
  | [] => ""
  | [x] => x
  | x :: l' => x ++ sep ++ join sep l'
  end.

Definition push (c : ascii) (r : result string) : result string :=
  s <- r ;; Ok (String c s).

Definition emit (v : string) (r : result string) : result string :=
  s <- r ;; Ok (v ++ s).

(** [s.format(collection_name=v)] for the fragment of the format
    mini-language the rule tables use: literal text, the doubled braces
    that stand for one brace, and the replacement field
    [{collection_name}].  [field] is [Some acc] while the scanner is
    inside a replacement field whose name read so far is [acc].  Any other
    field name is a [KeyError], an unbalanced brace a [ValueError]. *)
Fixpoint format_aux (v : string) (field : option string) (s : string)
  : result string :=
  match s with
  | "" =>
      match field with
      | None => Ok ""
      | Some _ => Raise (ValueError "expected '}' before end of string")
      end
  | String c s' =>
      match field with
      | Some acc =>
          if Ascii.eqb c "}" then
            if String.eqb acc "collection_name"
            then emit v (format_aux v None s')
            else Raise (KeyError acc)
          else format_aux v (Some (acc ++ String c "")) s'
      | None =>
          if Ascii.eqb c "{" then
            match s' with
            | "" => Raise (ValueError "Single '{' encountered in format string")
            | String c' s'' =>
                if Ascii.eqb c' "{"
                then push "{" (format_aux v None s'')
                else format_aux v (Some "") s'
            end
          else if Ascii.eqb c "}" then
            match s' with
            | "" => Raise (ValueError "Single '}' encountered in format string")
            | String c' s'' =>
                if Ascii.eqb c' "}"
                then push "}" (format_aux v None s'')
                else Raise (ValueError "Single '}' encountered in format string")
            end
          else push c (format_aux v None s')
      end
  end.

Definition format (template collection_name : string) : result string :=
  format_aux collection_name None template.

End PyStr.

(* ------------------------------------------------------------------ *)
(** ** Dictionaries in insertion order *)

Section Dict.
Variable V : Type.

Definition dict := list (string * V).

Fixpoint dict_get (k : string) (d : dict) : option V :=
  match d with
  | [] => None
  | (k', v) :: d' => if String.eqb k k' then Some v else dict_get k d'
  end.

Definition dict_keys (d : dict) : list string := map fst d.

Definition dict_mem (k : string) (d : dict) : bool :=
  match dict_get k d with Some _ => true | None => false end.

(** [d[k] = v]: an existing key keeps its position. *)
Fixpoint dict_set (k : string) (v : V) (d : dict) : dict :=
  match d with
  | [] => [(k, v)]
  | (k', v') :: d' =>
      if String.eqb k k' then (k', v) :: d' else (k', v') :: dict_set k v d'
  end.
End Dict.

Arguments dict_get {V} k d.
Arguments dict_keys {V} d.
Arguments dict_mem {V} k d.
Arguments dict_set {V} k v d.

(* ------------------------------------------------------------------ *)
(** ** The rule tables ([query_types.py]) *)

Record qt_template : Type := {
  tpl_statement : string;
  tpl_parts : list string
}.

Definition QUERY_TYPE_REQUIREMENTS : dict qt_template := [
  ("items",
   {| tpl_statement := "{collection_name} items query support";
      tpl_parts := [
        "The service SHALL provide a /collections/{collection_name}/items endpoint";
        "The Items query SHALL return GeoJSON FeatureCollection formatted data";
        "The Items query SHALL support GET method";
        "Each Feature SHALL contain the required properties defined in the profile";
        "The service SHALL provide a /collections/{collection_name}/items/{{featureId}} endpoint for individual items"
      ] |});
  ("position",
   {| tpl_statement := "{collection_name} position query support";
      tpl_parts := [
        "The service SHALL provide a /collections/{collection_name}/position endpoint";
        "The Position query SHALL accept coords parameter with POINT geometry";
        "The Position query SHALL support datetime parameter";
        "The response SHALL return data for the specified position"
      ] |});
  ("area",
   {| tpl_statement := "{collection_name} area query support";
      tpl_parts := [
        "The service SHALL provide a /collections/{collection_name}/area endpoint";
        "The Area query SHALL accept coords parameter with POLYGON or MULTIPOLYGON geometry";
        "The Area query SHALL support datetime parameter";
        "The response SHALL return data within the specified area"
      ] |});
  ("cube",
   {| tpl_statement := "{collection_name} cube query support";
      tpl_parts := [
        "The service SHALL provide a /collections/{collection_name}/cube endpoint";
        "The Cube query SHALL accept bbox parameter";
        "The Cube query SHALL support datetime and z parameters";
        "The response SHALL return data within the specified cube"
      ] |});
  ("trajectory",
   {| tpl_statement := "{collection_name} trajectory query support";
      tpl_parts := [
        "The service SHALL provide a /collections/{collection_name}/trajectory endpoint";
        "The Trajectory query SHALL accept coords parameter with LINESTRING geometry";
        "The Trajectory query SHALL support datetime parameter";
        "The response SHALL return data along the specified trajectory"
      ] |});
  ("corridor",
   {| tpl_statement := "{collection_name} corridor query support";
      tpl_parts := [
        "The service SHALL provide a /collections/{collection_name}/corridor endpoint";
        "The Corridor query SHALL accept coords and corridor-width parameters";
        "The Corridor query SHALL support datetime parameter";
        "The response SHALL return data within the specified corridor"
      ] |});
  ("locations",
   {| tpl_statement := "{collection_name} locations query support";
      tpl_parts := [
        "The service SHALL provide a /collections/{collection_name}/locations endpoint";
        "The Locations query SHALL accept locationId parameter";
        "The Locations query SHALL support datetime parameter";
        "The response SHALL return data for the specified location"
      ] |});
  ("instances",
   {| tpl_statement := "{collection_name} instances query support";
      tpl_parts := [
        "The service SHALL provide a /collections/{collection_name}/instances endpoint";
        "The Instances endpoint SHALL list available time instances";
        "Each instance SHALL support the same query types as the collection"
      ] |})
].

Definition QUERY_TYPE_TEST_STEPS : dict (list string) := [
  ("items", [
     "Send GET request to /collections/{collection_name}/items";
     "Verify response is valid GeoJSON FeatureCollection";
     "Verify response contains required properties";
     "Send GET request to /collections/{collection_name}/items/{{featureId}}";
     "Verify response is valid GeoJSON Feature"
   ]);
  ("position", [
     "Send GET request to /collections/{collection_name}/position with coords parameter";
     "Verify response contains data for the specified position";
     "Verify datetime parameter is supported"
   ]);
  ("area", [
     "Send GET request to /collections/{collection_name}/area with coords parameter";
     "Verify response contains data within the specified area";
     "Verify POLYGON and MULTIPOLYGON geometries are supported"
   ]);
  ("cube", [
     "Send GET request to /collections/{collection_name}/cube with bbox parameter";
     "Verify response contains data within the specified cube";
     "Verify datetime and z parameters are supported"
   ]);
  ("trajectory", [
     "Send GET request to /collections/{collection_name}/trajectory with coords parameter";
     "Verify response contains data along the trajectory";
     "Verify LINESTRING geometry is supported"
   ]);
  ("corridor", [
     "Send GET request to /collections/{collection_name}/corridor with coords and corridor-width parameters";
     "Verify response contains data within the corridor";
     "Verify datetime parameter is supported"
   ]);
  ("locations", [
     "Send GET request to /collections/{collection_name}/locations";
     "Verify response lists available locations";
     "Send GET request to /collections/{collection_name}/locations/{{locationId}}";
     "Verify response contains data for the specified location"
   ]);
  ("instances", [
     "Send GET request to /collections/{collection_name}/instances";
     "Verify response lists available time instances";
     "Verify each instance supports the collection's query types"
   ])
].

Definition FORMAT_REQUIREMENTS : dict (list string) := [
  ("geojson", [
     "A format with the label json SHALL provide GeoJSON output";
     "The GeoJSON output SHALL include standard GeoJSON properties: type, features, geometry, properties, and id";
     "The GeoJSON output SHALL include pagination metadata: numberMatched, numberReturned, and links array"
   ]);
  ("coveragejson", [
     "A format with the label covjson SHALL provide CoverageJSON output conforming to the CoverageJSON specification"
   ]);
  ("csv", [
     "A format with the label csv SHALL provide CSV output with appropriate headers"
   ]);
  ("netcdf", [
     "A format with the label netcdf SHALL provide NetCDF output conforming to CF conventions"
   ]);
  ("grib", [
     "A format with the label grib SHALL provide GRIB2 output conforming to WMO GRIB2 specification"
   ]);
  ("grib2", [
     "A format with the label grib SHALL provide GRIB2 output conforming to WMO GRIB2 specification"
   ]);
  ("zarr", [
     "A format with the label zarr SHALL provide Zarr output conforming to Zarr specification"
   ])
].

(* ------------------------------------------------------------------ *)
(** ** Data model *)

(** A collection of the profile configuration:
    [{"name": ..., "query_types": [...], "formats": [...]}]. *)
Record collection : Type := {
  name : string;
  query_types : list string;
  formats : list string
}.

(** A subscription filter: [{"name": ..., "description": ..., "type": ...}]. *)
Record filter : Type := {
  f_name : string;
  f_description : string;
  f_type : string
}.

(** A requirement: [{"id": ..., "statement": ..., "parts": [...]}]. *)
Record requirement : Type := {
  r_id : string;
  r_statement : string;
  r_parts : list string
}.

(** An abstract test: [{"id": ..., "req_id": ..., "steps": [...]}]. *)
Record test : Type := {
  t_id : string;
  t_req_id : string;
  t_steps : list string
}.

(** [name.replace('_', '-')], the form a collection name takes inside an
    identifier. *)
Definition dash_case (s : string) : string := PyStr.replace "_" "-" s.

(* ------------------------------------------------------------------ *)
(** ** Requirement generation logic *)

(** [generate_query_type_requirement(collection_name, query_type)];
    [Ok None] is Python's [return None]. *)
Definition generate_query_type_requirement (collection_name query_type : string)
  : result (option requirement) :=
  match dict_get query_type QUERY_TYPE_REQUIREMENTS with
  | None => Ok None
  | Some template =>
      let req_id := "data-query-" ++ query_type ++ "-" ++ dash_case collection_name in
      statement <- PyStr.format (tpl_statement template) collection_name ;;
      parts <- mapM (fun part => PyStr.format part collection_name)
                    (tpl_parts template) ;;
      Ok (Some {| r_id := req_id; r_statement := statement; r_parts := parts |})
  end.

(** [generate_query_type_test(collection_name, query_type, req_id)] *)
Definition generate_query_type_test (collection_name query_type req_id : string)
  : result test :=
  let steps_template :=
    match dict_get query_type QUERY_TYPE_TEST_STEPS with
    | Some steps => steps
    | None => [ "Verify " ++ query_type ++ " query is implemented";
                "Test basic functionality";
                "Verify conformance" ]
    end in
  steps <- mapM (fun step => PyStr.format step collection_name) steps_template ;;
  let test_id := req_id in
  Ok {| t_id := test_id; t_req_id := req_id; t_steps := steps |}.

(** The clauses one format label contributes. *)
Definition format_clauses (fmt : string) : list string :=
  let fmt_lower := PyStr.lower fmt in
  match dict_get fmt_lower FORMAT_REQUIREMENTS with
  | Some clauses => clauses
  | None => [ "A format with the label " ++ fmt_lower ++ " SHALL be supported" ]
  end.

(** [generate_format_requirement(collection_name, formats)]: the loop
    extends [format_parts] by the clauses of each label in turn. *)
Definition generate_format_requirement (collection_name : string)
  (formats : list string) : requirement :=
  let format_parts :=
    fold_left (fun acc fmt => (acc ++ format_clauses fmt)%list) formats
      [ "Collection " ++ collection_name ++ " SHALL support the following formats:" ] in
  {| r_id := "output-format-" ++ dash_case collection_name;
     r_statement := "Output format support for " ++ collection_name;
     r_parts := format_parts |}.

(** [l[i]] *)
Definition list_index {A : Type} (l : list A) (i : nat) : result A :=
  match nth_error l i with
  | Some a => Ok a
  | None => Raise (IndexError "list index out of range")
  end.

(** The inner loop of the query-type pass for one collection: a query type
    the table does not know leaves the list as it is. *)
Fixpoint query_type_requirements (collection_name : string) (qts : list string)
  : result (list requirement) :=
  match qts with
  | [] => Ok []
  | qt :: qts' =>
      req <- generate_query_type_requirement collection_name qt ;;
      rest <- query_type_requirements collection_name qts' ;;
      Ok (match req with
          | Some r => r :: rest
          | None => rest
          end)
  end.

Fixpoint all_query_type_requirements (collections : list collection)
  : result (list requirement) :=
  match collections with
  | [] => Ok []
  | coll :: colls' =>
      here <- query_type_requirements (name coll) (query_types coll) ;;
      rest <- all_query_type_requirements colls' ;;
      Ok (here ++ rest)%list
  end.

Definition openapi_requirement : requirement :=
  {| r_id := "openapi";
     r_statement := "OpenAPI specification";
     r_parts := [
       "The service SHALL provide an OpenAPI 3.0 specification";
       "The OpenAPI SHALL document all collection endpoints";
       "The OpenAPI SHALL include GeoJSON schemas"
     ] |}.

Definition collection_requirement (coll : collection) : requirement :=
  {| r_id := "collection-" ++ dash_case (name coll);
     r_statement := name coll ++ " collection metadata";
     r_parts := [
       "The service SHALL provide a /collections/" ++ name coll ++ " endpoint";
       "The endpoint SHALL return collection metadata including extent and available query types";
       "The response SHALL conform to OGC API - EDR collection schema"
     ] |}.

Definition asyncapi_requirement (coll : collection) : requirement :=
  {| r_id := "asyncapi-" ++ dash_case (name coll);
     r_statement := "AsyncAPI specification and PubSub messaging for " ++ name coll;
     r_parts := [
       "The service SHALL provide an AsyncAPI 3.0 specification";
       "The AsyncAPI SHALL define " ++ name coll ++ " notification channels";
       "The service SHALL support AMQP protocol";
       "The service SHALL publish messages to collections/" ++ name coll ++ "/items/# channel";
       "Messages SHALL conform to the AsyncAPI schema"
     ] |}.

Definition filters_requirement (filters : list filter) : requirement :=
  {| r_id := "filters";
     r_statement := "Filter support";
     r_parts := [
       "The service SHALL support subscription filters";
       "The service SHALL support filtering by " ++ PyStr.join ", " (map f_name filters);
       "Filters SHALL be defined in x-ogc-subscription extension"
     ] |}.

(** [generate_suggested_requirements(collections, include_asyncapi, filters)]:
    the six passes append to one list, in this order. *)
Definition generate_suggested_requirements (collections : list collection)
  (include_asyncapi : bool) (filters : list filter) : result (list requirement) :=
  query_reqs <- all_query_type_requirements collections ;;
  Ok ([openapi_requirement]
      ++ map collection_requirement collections
      ++ query_reqs
      ++ map (fun coll => generate_format_requirement (name coll) (formats coll))
             collections
      ++ (if include_asyncapi then map asyncapi_requirement collections else [])
      ++ (match filters with
          | [] => []
          | _ :: _ => [filters_requirement filters]
          end))%list.

(* ------------------------------------------------------------------ *)
(** ** Test generation logic *)

Definition test_templates : dict (list string) := [
  ("openapi", [
     "Send GET request to /openapi";
     "Verify response is valid OpenAPI 3.0 document";
     "Verify all collection endpoints are documented";
     "Verify GeoJSON schemas are defined"
   ]);
  ("asyncapi", [
     "Send GET request to /asyncapi.yaml";
     "Verify response is valid AsyncAPI 3.0 document";
     "Verify channels are defined for notifications";
     "Verify AMQP server is configured";
     "Connect to AMQP broker";
     "Subscribe to notification channel";
     "Verify messages are received";
     "Verify messages conform to AsyncAPI schema"
   ]);
  ("filters", [
     "Verify x-ogc-subscription extension exists in AsyncAPI";
     "Verify all filters are documented";
     "Create subscription with filter";
     "Verify only matching messages are received"
   ])
].

(** [f"data-query-{qt}-"] *)
Definition marker (qt : string) : string := "data-query-" ++ qt ++ "-".

(** The [else] branch of the [for ... else]: a fixed template chosen by
    the token before the first dash, or three generic steps. *)
Definition template_test (req : requirement) : result test :=
  base_id <- (if PyStr.contains "-" (r_id req)
              then pieces <- PyStr.split "-" (r_id req) ;; list_index pieces 0
              else Ok (r_id req)) ;;
  let steps :=
    match dict_get base_id test_templates with
    | Some steps => steps
    | None => [ "Verify requirement " ++ r_id req ++ " is implemented";
                "Test basic functionality";
                "Verify conformance" ]
    end in
  Ok {| t_id := r_id req; t_req_id := r_id req; t_steps := steps |}.

(** The body of the outer loop: the first query type of the table, in
    table order, whose marker occurs in the id decides ([break]); when
    none does, the [else] branch runs. *)
Definition suggested_test (req : requirement) : result test :=
  match find (fun qt => PyStr.contains (marker qt) (r_id req))
             (dict_keys QUERY_TYPE_TEST_STEPS) with
  | Some qt =>
      pieces <- PyStr.split (marker qt) (r_id req) ;;
      piece <- list_index pieces 1 ;;
      let collection_name := PyStr.replace "-" "_" piece in
      generate_query_type_test collection_name qt (r_id req)
  | None => template_test req
  end.

(** [generate_suggested_tests(requirements)] *)
Definition generate_suggested_tests (requirements : list requirement)
  : result (list test) :=
  mapM suggested_test requirements.

(* ------------------------------------------------------------------ *)
(** ** Requirement, test and class files *)

Definition nl : string := String (ascii_of_nat 10) "".

(** [Path(p).name]: the last component of the path, where empty
    components and [.] do not count. *)
Definition Path_name (p : string) : string :=
  let components :=
    List.filter (fun c => negb (String.eqb c "" || String.eqb c "."))
           (PyStr.split_aux "/" 0 "" p) in
  last components "".

(** The four anchors, as the four [create_*] functions compute them from
    [base.name]. *)
Definition requirement_anchor (base_name req_id : string) : string :=
  PyStr.replace "/" "_" ("req_" ++ base_name ++ "_" ++ req_id).

Definition abstract_test_anchor (base_name test_id : string) : string :=
  PyStr.replace "/" "_" ("ats_" ++ base_name ++ "_" ++ test_id).

Definition requirements_class_anchor (base_name class_name : string) : string :=
  PyStr.replace "-" "_" ("req_class_" ++ base_name ++ "_" ++ class_name).

Definition conformance_class_anchor (base_name class_name : string) : string :=
  PyStr.replace "_class_" "_class-"
    (PyStr.replace "-" "_" ("ats_class-" ++ base_name ++ "_" ++ class_name)).

(** A file of the bundle: its path below the working directory, as a list
    of components, and what is written to it. *)
Inductive content : Type :=
| Text (text : string)
| Document (kind : string).

Record file : Type := {
  file_path : list string;
  file_content : content
}.

(** [create_requirement(base, req_id, statement, parts)] *)
Definition create_requirement (base req_id statement : string)
  (parts : list string) : file :=
  let base_name := Path_name base in
  let anchor_id := requirement_anchor base_name req_id in
  let head :=
    "[[" ++ anchor_id ++ "]]" ++ nl ++
    "[requirement]" ++ nl ++
    "====" ++ nl ++
    "[%metadata]" ++ nl ++
    "identifier:: /req/" ++ base_name ++ "/" ++ req_id ++ nl ++
    "statement:: " ++ statement ++ nl in
  let body :=
    fold_left (fun acc part => acc ++ "part:: " ++ part ++ nl) parts head in
  {| file_path := [base; "requirements"; "core"; "REQ_" ++ req_id ++ ".adoc"];
     file_content := Text (body ++ "====" ++ nl) |}.

(** [create_abstract_test(base, test_id, req_id, steps)] *)
Definition create_abstract_test (base test_id req_id : string)
  (steps : list string) : file :=
  let base_name := Path_name base in
  let anchor_id := abstract_test_anchor base_name test_id in
  let head :=
    "[[" ++ anchor_id ++ "]]" ++ nl ++
    "[abstract_test]" ++ nl ++
    "====" ++ nl ++
    "[%metadata]" ++ nl ++
    "identifier:: /conf/" ++ base_name ++ "/" ++ test_id ++ nl ++
    "target:: /req/" ++ base_name ++ "/" ++ req_id ++ nl ++
    "test-purpose:: Validate that " ++ PyStr.replace "-" " " test_id ++
      " requirement is correctly implemented." ++ nl ++
    "test-method::" ++ nl in
  let body :=
    fold_left (fun acc step => acc ++ "step:: " ++ step ++ nl) steps head in
  {| file_path := [base; "abstract_tests"; "core"; "ATS_" ++ test_id ++ ".adoc"];
     file_content := Text (body ++ "====" ++ nl) |}.

(** [create_requirements_class(base, class_name, requirements)] *)
Definition create_requirements_class (base class_name : string)
  (requirements : list requirement) : file :=
  let base_name := Path_name base in
  let anchor_id := requirements_class_anchor base_name class_name in
  let head :=
    "[[" ++ anchor_id ++ "]]" ++ nl ++
    "[requirements_class]" ++ nl ++
    "====" ++ nl ++
    "[%metadata]" ++ nl ++
    "identifier:: http://www.opengis.net/spec/ogcapi-edr-3/1.0/req/" ++ base_name ++ nl ++
    "target-type:: " ++ PyStr.title (PyStr.replace "_" " " base_name) ++
      " Profile Standard" ++ nl in
  let body :=
    fold_left (fun acc req =>
                 acc ++ "requirement:: /req/" ++ base_name ++ "/" ++ r_id req ++ nl)
              requirements head in
  {| file_path := [base; "requirements";
                   "requirements_class_" ++ class_name ++ ".adoc"];
     file_content := Text (body ++ "====" ++ nl) |}.

(** [create_conformance_class(base, class_name, tests)] *)
Definition create_conformance_class (base class_name : string)
  (tests : list test) : file :=
  let base_name := Path_name base in
  let anchor_id := conformance_class_anchor base_name class_name in
  let head :=
    "[[" ++ anchor_id ++ "]]" ++ nl ++
    "[conformance_class]" ++ nl ++
    "====" ++ nl ++
    "[%metadata]" ++ nl ++
    "identifier:: http://www.opengis.net/spec/ogcapi-edr-3/1.0/conf/" ++ base_name ++ nl ++
    "target:: http://www.opengis.net/spec/ogcapi-edr-3/1.0/req/" ++ base_name ++ nl in
  let body :=
    fold_left (fun acc t =>
                 acc ++ "abstract-test:: /conf/" ++ base_name ++ "/" ++ t_id t ++ nl)
              tests head in
  {| file_path := [base; "abstract_tests"; "ATS_class_" ++ class_name ++ ".adoc"];
     file_content := Text (body ++ "====" ++ nl) |}.

(* ------------------------------------------------------------------ *)
(** ** OpenAPI generation *)

(** One entry of a [parameters] list; every parameter has the schema
    [{"type": "string"}].  [p_required] is whether the entry carries
    ["required": True]. *)
Record parameter : Type := {
  p_name : string;
  p_in : string;
  p_required : bool
}.

(** A path item: the source gives each path a single [get] operation.
    [op_parameters] is [None] when the operation has no [parameters] key. *)
Record path_item : Type := {
  op_summary : string;
  op_parameters : option (list parameter);
  op_response_200 : string
}.

(** A feature schema: the names of the string-typed properties, and the
    pub/sub extension (its key and its channel) when there is one. *)
Record feature_schema : Type := {
  fs_properties : dict unit;
  fs_pubsub : option (string * string)
}.

Record openapi_spec : Type := {
  oa_title : string;
  oa_description : string;
  oa_paths : dict path_item;
  oa_schemas : dict feature_schema
}.

(** The body of [for qt in query_types]. *)
Definition add_query_type_paths (collection_name qt : string)
  (paths : dict path_item) : dict path_item :=
  if String.eqb qt "items" then
    let paths :=
      dict_set ("/collections/" ++ collection_name ++ "/items")
        {| op_summary := "Query " ++ collection_name ++ " items";
           op_parameters := Some [
             {| p_name := "datetime"; p_in := "query"; p_required := false |};
             {| p_name := "bbox"; p_in := "query"; p_required := false |} ];
           op_response_200 := "GeoJSON FeatureCollection" |} paths in
    dict_set ("/collections/" ++ collection_name ++ "/items/{featureId}")
      {| op_summary := "Get specific " ++ collection_name ++ " item";
         op_parameters := Some [
           {| p_name := "featureId"; p_in := "path"; p_required := true |} ];
         op_response_200 := "GeoJSON Feature" |} paths
  else if String.eqb qt "locations" then
    let paths :=
      dict_set ("/collections/" ++ collection_name ++ "/locations")
        {| op_summary := "Get available locations for " ++ collection_name;
           op_parameters := None;
           op_response_200 := "GeoJSON FeatureCollection of available locations" |}
        paths in
    dict_set ("/collections/" ++ collection_name ++ "/locations/{locationId}")
      {| op_summary := "Query " ++ collection_name ++ " data by location";
         op_parameters := Some [
           {| p_name := "locationId"; p_in := "path"; p_required := true |};
           {| p_name := "datetime"; p_in := "query"; p_required := false |} ];
         op_response_200 := "Query results" |} paths
  else
    dict_set ("/collections/" ++ collection_name ++ "/" ++ qt)
      {| op_summary := "Query " ++ collection_name ++ " by " ++ qt;
         op_parameters := Some [
           {| p_name := "coords"; p_in := "query"; p_required := true |};
           {| p_name := "datetime"; p_in := "query"; p_required := false |} ];
         op_response_200 := "Query results" |} paths.

(** The body of [for coll in collections]: the metadata path, the paths of
    each query type, then the schema of the collection. *)
Definition add_collection (base_name : string) (properties : list string)
  (include_asyncapi : bool) (acc : dict path_item * dict feature_schema)
  (coll : collection) : dict path_item * dict feature_schema :=
  let (paths, schemas) := acc in
  let collection_name := name coll in
  let paths :=
    dict_set ("/collections/" ++ collection_name)
      {| op_summary := "Get " ++ collection_name ++ " metadata";
         op_parameters := None;
         op_response_200 := "Collection metadata" |} paths in
  let paths :=
    fold_left (fun ps qt => add_query_type_paths collection_name qt ps)
              (query_types coll) paths in
  let schema :=
    {| fs_properties := fold_left (fun d prop => dict_set prop tt d) properties [];
       fs_pubsub :=
         if include_asyncapi
         then Some ("x-ogc-edr-" ++ base_name ++ "-pubsub",
                    collection_name ++ "_notifications")
         else None |} in
  (paths,
   dict_set (PyStr.replace "_" "" (PyStr.title collection_name) ++ "Feature")
            schema schemas).

(** The [spec] dictionary [create_openapi] dumps to [openapi.yaml]. *)
Definition openapi_document (base_name : string) (collections : list collection)
  (properties : list string) (include_asyncapi : bool) : openapi_spec :=
  let (paths, schemas) :=
    fold_left (add_collection base_name properties include_asyncapi)
              collections ([], []) in
  let titled := PyStr.title (PyStr.replace "_" " " base_name) in
  {| oa_title := titled ++ " Profile API";
     oa_description := "OGC API - EDR " ++ titled ++ " Profile";
     oa_paths := paths;
     oa_schemas := schemas |}.

(* ------------------------------------------------------------------ *)
(** ** The generation run ([main], once a configuration file is loaded)

    A loaded configuration is the dictionary [yaml.safe_load] returns: any
    key can be missing.  A missing key is [None] here, and reading it
    raises [KeyError], as [config[key]] does. *)

Record raw_collection : Type := {
  rc_name : option string;
  rc_query_types : option (list string);
  rc_formats : option (list string)
}.

Record config : Type := {
  cfg_profile_name : option string;
  cfg_profile_title : option string;
  cfg_collections : option (list raw_collection);
  cfg_properties : option (list string);
  cfg_filters : option (list filter);
  cfg_include_asyncapi : option bool;
  cfg_requirements : option (list requirement);
  cfg_tests : option (list test)
}.

(** [d[key]] *)
Definition getitem {A : Type} (key : string) (field : option A) : result A :=
  match field with
  | Some a => Ok a
  | None => Raise (KeyError key)
  end.

(** What a run does to the file system, in order. *)
Inductive event : Type :=
| Mkdir (path : list string)
| FileWritten (f : file).

(** A run: the events so far, and a value or the exception that stopped
    it. *)
Definition io (A : Type) : Type := (list event * result A)%type.

Definition io_ret {A : Type} (a : A) : io A := ([], Ok a).

Definition io_bind {A B : Type} (m : io A) (k : A -> io B) : io B :=
  match m with
  | (log, Ok a) => let (log', r) := k a in ((log ++ log')%list, r)
  | (log, Raise e) => (log, Raise e)
  end.

Notation "x <~ m ;; k" := (io_bind m (fun x => k))
  (at level 61, m at next level, right associativity).

Definition lift {A : Type} (r : result A) : io A := ([], r).

Definition emit_event (e : event) : io unit := ([e], Ok tt).

(** [file_path.write_text(content)]: the write is logged.  The
    directories are those [create_directory_structure] makes, so the file
    name has to be one path component: the properties of a run are stated
    for requirement and test ids without a path separator. *)
Definition write_file (f : file) : io unit := emit_event (FileWritten f).

Fixpoint io_iter {A : Type} (f : A -> io unit) (l : list A) : io unit :=
  match l with
  | [] => io_ret tt
  | a :: l' => _ <~ f a ;; io_iter f l'
  end.

(** The [dirs] of [create_directory_structure]. *)
Definition profile_directories (base : string) : list (list string) :=
  [ [base];
    [base; "requirements"; "core"];
    [base; "abstract_tests"; "core"];
    [base; "recommendations"; "core"];
    [base; "sections"];
    [base; "examples"];
    [base; "custom_amqp_test"] ].

(** [create_directory_structure(profile_name)] *)
Definition create_directory_structure (profile_name : string) : io string :=
  let base := profile_name in
  _ <~ io_iter (fun d => emit_event (Mkdir d)) (profile_directories base) ;;
  io_ret base.

(** [create_openapi] reads [coll['name']] and [coll['query_types']] of each
    collection in turn, and never [coll['formats']]. *)
Definition openapi_view (rc : raw_collection) : result collection :=
  n <- getitem "name" (rc_name rc) ;;
  qts <- getitem "query_types" (rc_query_types rc) ;;
  Ok {| name := n; query_types := qts;
        formats := match rc_formats rc with Some fs => fs | None => [] end |}.

(** [create_openapi(base, collections, properties, include_asyncapi)]: the
    document is built first and written last. *)
Definition create_openapi (base : string) (collections : list raw_collection)
  (properties : list string) (include_asyncapi : bool) : io openapi_spec :=
  colls <~ lift (mapM openapi_view collections) ;;
  let spec := openapi_document (Path_name base) colls properties include_asyncapi in
  _ <~ write_file {| file_path := [base; "openapi.yaml"];
                     file_content := Document "openapi" |} ;;
  io_ret spec.

(** [create_asyncapi(base, collections, filters)] reads [coll['name']]
    only. *)
Definition create_asyncapi (base : string) (collections : list raw_collection)
  (filters : list filter) : io unit :=
  _ <~ lift (mapM (fun rc => getitem "name" (rc_name rc)) collections) ;;
  write_file {| file_path := [base; "asyncapi.yaml"];
                file_content := Document "asyncapi" |}.

(** [create_main_adoc(base, profile_title)] *)
Definition create_main_adoc (base profile_title : string) : io unit :=
  write_file {| file_path := [base; Path_name base ++ "_profile.adoc"];
                file_content := Document "main" |}.

(** The three keys the collection texts of [create_sections] and of
    [get_readme_template] read, in this order. *)
Definition text_view (rc : raw_collection) : result unit :=
  _ <- getitem "name" (rc_name rc) ;;
  _ <- getitem "query_types" (rc_query_types rc) ;;
  _ <- getitem "formats" (rc_formats rc) ;;
  Ok tt.

Definition section_files (base_name : string) : list string := [
  "clause_0_front_material.adoc";
  "clause_1_scope.adoc";
  "clause_2_conformance.adoc";
  "clause_3_references.adoc";
  "clause_4_terms_and_definitions.adoc";
  "clause_5_conventions.adoc";
  "clause_6_context.adoc";
  "clause_7_" ++ base_name ++ ".adoc";
  "annex-a.adoc";
  "annex-history.adoc";
  "annex-bibliography.adoc"
].

(** [create_sections(base, profile_title, collections, requirements, tests)]:
    the collection text is built before any section file is written. *)
Definition create_sections (base profile_title : string)
  (collections : list raw_collection) (requirements : list requirement)
  (tests : list test) : io unit :=
  _ <~ lift (mapM text_view collections) ;;
  io_iter (fun filename =>
             write_file {| file_path := [base; "sections"; filename];
                           file_content := Document "section" |})
          (section_files (Path_name base)).

(** [create_supporting_files(base, profile_title, collections)]: the
    Makefile is written before the README text is built. *)
Definition create_supporting_files (base profile_title : string)
  (collections : list raw_collection) : io unit :=
  _ <~ write_file {| file_path := [base; "Makefile"];
                     file_content := Document "makefile" |} ;;
  _ <~ lift (mapM text_view collections) ;;
  _ <~ write_file {| file_path := [base; "README.md"];
                     file_content := Document "readme" |} ;;
  _ <~ write_file {| file_path := [base; "metanorma.yml"];
                     file_content := Document "metanorma" |} ;;
  write_file {| file_path := [base; "custom_amqp_test"; "test_asyncapi_amqp.py"];
                file_content := Document "test_script" |}.

(** [save_config(base, config)] *)
Definition save_config (base : string) : io unit :=
  write_file {| file_path := [base; "profile_config.yml"];
                file_content := Document "config" |}.

(** [main] from the point where the configuration has been loaded from a
    file: the title is read for the progress message, then the eight keys,
    then the bundle is written step by step. *)
Definition main_generate (cfg : config) : io unit :=
  _ <~ lift (getitem "profile_title" (cfg_profile_title cfg)) ;;
  profile_name <~ lift (getitem "profile_name" (cfg_profile_name cfg)) ;;
  profile_title <~ lift (getitem "profile_title" (cfg_profile_title cfg)) ;;
  collections <~ lift (getitem "collections" (cfg_collections cfg)) ;;
  properties <~ lift (getitem "properties" (cfg_properties cfg)) ;;
  filters <~ lift (getitem "filters" (cfg_filters cfg)) ;;
  include_asyncapi <~ lift (getitem "include_asyncapi" (cfg_include_asyncapi cfg)) ;;
  requirements <~ lift (getitem "requirements" (cfg_requirements cfg)) ;;
  tests <~ lift (getitem "tests" (cfg_tests cfg)) ;;
  base <~ create_directory_structure profile_name ;;
  _ <~ io_iter (fun req =>
                  write_file (create_requirement base (r_id req) (r_statement req)
                                                 (r_parts req)))
               requirements ;;
  _ <~ write_file (create_requirements_class base "core" requirements) ;;
  _ <~ io_iter (fun t =>
                  write_file (create_abstract_test base (t_id t) (t_req_id t)
                                                   (t_steps t)))
               tests ;;
  _ <~ write_file (create_conformance_class base "core" tests) ;;
  _ <~ create_openapi base collections properties include_asyncapi ;;
  _ <~ (if include_asyncapi : bool
        then create_asyncapi base collections filters
        else io_ret tt) ;;
  _ <~ create_main_adoc base profile_title ;;
  _ <~ create_sections base profile_title collections requirements tests ;;
  _ <~ create_supporting_files base profile_title collections ;;
  save_config base.

(** The files a run has written. *)
Definition files_written (log : list event) : list file :=
  flat_map (fun e => match e with FileWritten f => [f] | Mkdir _ => [] end) log.

(* ------------------------------------------------------------------ *)
(** ** User interaction

    [input()] is the line the user types; the prompts below are functions
    of that line. *)

(** ASCII whitespace, what [str.strip()] removes. *)
Definition is_space (c : ascii) : bool :=
  let n := nat_of_ascii c in
  (Nat.leb 9 n && Nat.leb n 13) || (Nat.leb 28 n && Nat.leb n 32).

Fixpoint lstrip (s : string) : string :=
  match s with
  | "" => ""
  | String c s' => if is_space c then lstrip s' else s
  end.

Fixpoint rstrip (s : string) : string :=
  match s with
  | "" => ""
  | String c s' =>
      match rstrip s' with
      | "" => if is_space c then "" else String c ""
      | r => String c r
      end
  end.

(** [s.strip()] *)
Definition strip (s : string) : string := rstrip (lstrip s).

(** Truth value of a string. *)
Definition truthy (s : string) : bool :=
  match s with "" => false | _ => true end.

(** [prompt(message, default)], [typed] being the line read: a default
    that is [None] or empty counts as no default. *)
Definition prompt (default : option string) (typed : string) : string :=
  match default with
  | Some d =>
      if truthy d
      then let response := strip typed in
           if truthy response then response else d
      else strip typed
  | None => strip typed
  end.

(** [prompt_list(message, default)], [typed] being the line read. *)
Definition prompt_list (default : option string) (typed : string) : list string :=
  let response :=
    match default with
    | Some d =>
        if truthy d
        then let response := strip typed in
             if truthy response then response else d
        else strip typed
    | None => strip typed
    end in
  map strip
      (List.filter (fun item => truthy (strip item))
                   (PyStr.split_aux "," 0 "" response)).

(** The collection [get_interactive_config] builds from the three lines
    typed for it: an empty list of query types becomes [["items"]], an
    empty list of formats [["GeoJSON"]].  [default_name] is the default the
    name prompt offers. *)
Definition interactive_collection (default_name : string)
  (typed_name typed_query_types typed_formats : string) : collection :=
  let coll_name := prompt (Some default_name) typed_name in
  let coll_query_types := prompt_list (Some "items") typed_query_types in
  let coll_query_types :=
    match coll_query_types with [] => ["items"] | _ => coll_query_types end in
  let coll_formats := prompt_list (Some "GeoJSON") typed_formats in
  let coll_formats :=
    match coll_formats with [] => ["GeoJSON"] | _ => coll_formats end in
  {| name := coll_name; query_types := coll_query_types; formats := coll_formats |}.

(* ------------------------------------------------------------------ *)
(** ** AsyncAPI generation *)

(** A channel: its address and description, the filters of its
    [x-ogc-subscription] extension (name, description and schema type of
    each), and its [messages], from message name to [$ref]. *)
Record channel : Type := {
  ch_address : string;
  ch_description : string;
  ch_filters : list filter;
  ch_messages : dict string
}.

(** An operation: action, the [$ref] of its channel, the [$ref]s of its
    messages. *)
Record operation : Type := {
  opn_action : string;
  opn_channel : string;
  opn_messages : list string
}.

(** The payload of a message: the required keys, the constant of [type],
    the required keys of [properties], and the format of [timestamp]. *)
Record message : Type := {
  msg_required : list string;
  msg_type_const : string;
  msg_properties_required : list string;
  msg_timestamp_format : string
}.

Definition observation_message : message :=
  {| msg_required := ["type"; "properties"];
     msg_type_const := "Feature";
     msg_properties_required := ["id"; "timestamp"];
     msg_timestamp_format := "date-time" |}.

Record asyncapi_spec : Type := {
  aa_title : string;
  aa_description : string;
  aa_channels : dict channel;
  aa_operations : dict operation;
  aa_messages : dict message
}.

(** [collection_name.title().replace('_', '')] *)
Definition camel (collection_name : string) : string :=
  PyStr.replace "_" "" (PyStr.title collection_name).

(** The body of [for coll in collections] of [create_asyncapi]. *)
Definition add_channel (filters : list filter)
  (acc : dict channel * dict operation * dict message) (coll : collection)
  : dict channel * dict operation * dict message :=
  let '(channels, operations, messages) := acc in
  let collection_name := name coll in
  let channels :=
    dict_set (collection_name ++ "_notifications")
      {| ch_address := "collections/" ++ collection_name ++ "/items/#";
         ch_description :=
           PyStr.title (PyStr.replace "_" " " collection_name)
           ++ " observation notifications";
         ch_filters :=
           map (fun f => {| f_name := f_name f;
                            f_description := f_description f;
                            f_type := f_type f |}) filters;
         ch_messages :=
           [ (collection_name ++ "Update",
              "#/components/messages/" ++ camel collection_name ++ "Observation") ]
      |} channels in
  let operations :=
    dict_set ("receive" ++ camel collection_name ++ "Update")
      {| opn_action := "receive";
         opn_channel := "#/channels/" ++ collection_name ++ "_notifications";
         opn_messages :=
           [ "#/channels/" ++ collection_name ++ "_notifications/messages/"
             ++ collection_name ++ "Update" ] |} operations in
  let messages :=
    dict_set (camel collection_name ++ "Observation") observation_message
             messages in
  (channels, operations, messages).

(** The [spec] dictionary [create_asyncapi] dumps to [asyncapi.yaml]. *)
Definition asyncapi_document (base_name : string) (collections : list collection)
  (filters : list filter) : asyncapi_spec :=
  let '(channels, operations, messages) :=
    fold_left (add_channel filters) collections ([], [], []) in
  {| aa_title :=
       PyStr.title (PyStr.replace "_" " " base_name) ++ " Profile AsyncAPI";
     aa_description :=
       "Real-time notifications for " ++ PyStr.join ", " (map name collections);
     aa_channels := channels;
     aa_operations := operations;
     aa_messages := messages |}.

(* ------------------------------------------------------------------ *)
(** ** Documentation generation *)

(** [requirements_text] of [create_sections]. *)
Definition requirements_text (requirements : list requirement) : string :=
  fold_left (fun acc req =>
               acc ++ "include::../requirements/core/REQ_" ++ r_id req
               ++ ".adoc[]" ++ nl ++ nl)
            requirements "".

(** [test_includes] of [get_section_templates]. *)
Definition test_includes (tests : list test) : string :=
  PyStr.join nl
    (map (fun t => "include::../abstract_tests/core/ATS_" ++ t_id t ++ ".adoc[]")
         tests).

(* ------------------------------------------------------------------ *)
(** ** Vocabulary of the properties *)

(** [query_type in QUERY_TYPE_REQUIREMENTS] *)
Definition known_query_type (qt : string) : bool :=
  dict_mem qt QUERY_TYPE_REQUIREMENTS.

(** The collection with the unknown query types struck out. *)
Definition known_only (coll : collection) : collection :=
  {| name := name coll;
     query_types := List.filter known_query_type (query_types coll);
     formats := formats coll |}.

Definition query_requirement_id (collection_name qt : string) : string :=
  "data-query-" ++ qt ++ "-" ++ dash_case collection_name.

(** The worked example of the specification. *)
Definition water_gauge : collection :=
  {| name := "water_gauge";
     query_types := ["items"; "position"];
     formats := ["GeoJSON"] |}.

(** The number of steps of the test of requirement [req_id], when the list
    has such a test. *)
Definition steps_of (req_id : string) (tests : list test) : option nat :=
  option_map (fun t => List.length (t_steps t))
             (find (fun t => String.eqb (t_id t) req_id) tests).

(** The header clause of an output-format requirement. *)
Definition format_header (collection_name : string) : string :=
  "Collection " ++ collection_name ++ " SHALL support the following formats:".

(** The generic clause for a label the format table does not know. *)
Definition fallback_clause (label : string) : string :=
  "A format with the label " ++ label ++ " SHALL be supported".

(** The expansion of one label as the specification words it: the
    fallback clause names the label as it was given. *)
Definition spec_format_clauses (fmt : string) : list string :=
  match dict_get (PyStr.lower fmt) FORMAT_REQUIREMENTS with
  | Some clauses => clauses
  | None => [fallback_clause fmt]
  end.

(** The ids requirement synthesis gives the per-collection requirements of
    one pass, the query-type requirements, and the whole list. *)
Definition collection_ids (prefix : string) (collections : list collection)
  : list string :=
  map (fun coll => prefix ++ dash_case (name coll)) collections.

Definition query_ids (collections : list collection) : list string :=
  flat_map (fun coll =>
              map (query_requirement_id (name coll))
                  (List.filter known_query_type (query_types coll)))
           collections.

Definition suggested_ids (collections : list collection)
  (include_asyncapi : bool) (filters : list filter) : list string :=
  (["openapi"]
   ++ collection_ids "collection-" collections
   ++ query_ids collections
   ++ collection_ids "output-format-" collections
   ++ (if include_asyncapi then collection_ids "asyncapi-" collections else [])
   ++ (match filters with [] => [] | _ :: _ => ["filters"] end))%list.

(** The first two characters of an id tell the passes apart. *)
Definition id_tag (s : string) : string :=
  match s with
  | String a (String b _) => String a (String b "")
  | _ => s
  end.

(** The two path items the specification expects for a collection whose
    only query type is items. *)
Definition spec_items_paths (collection_name : string) : list string :=
  [ "/collections/" ++ collection_name ++ "/items";
    "/collections/" ++ collection_name ++ "/items/{featureId}" ].

(** Every [a] of the string becomes [b]. *)
Fixpoint subst_char (a b : ascii) (s : string) : string :=
  match s with
  | "" => ""
  | String c s' => String (if Ascii.eqb c a then b else c) (subst_char a b s')
  end.

(** The anchor as the specification words it: prefix, profile name and
    local id joined by underscores, then every path separator and every
    dash turned into an underscore. *)
Definition spec_anchor (kind_prefix profile_name local_id : string) : string :=
  subst_char "-" "_"
    (subst_char "/" "_" (kind_prefix ++ "_" ++ profile_name ++ "_" ++ local_id)).

(** The number of occurrences of a character. *)
Fixpoint count_char (a : ascii) (s : string) : nat :=
  match s with
  | "" => 0
  | String c s' => (if Ascii.eqb c a then 1 else 0) + count_char a s'
  end.

(** A collection record with its three keys. *)
Definition complete_collection (rc : raw_collection) : bool :=
  match rc_name rc, rc_query_types rc, rc_formats rc with
  | Some _, Some _, Some _ => true
  | _, _, _ => false
  end.

(** A configuration with its eight top-level keys. *)
Definition top_level_complete (cfg : config) : bool :=
  match cfg_profile_name cfg, cfg_profile_title cfg, cfg_collections cfg,
        cfg_properties cfg, cfg_filters cfg, cfg_include_asyncapi cfg,
        cfg_requirements cfg, cfg_tests cfg with
  | Some _, Some _, Some _, Some _, Some _, Some _, Some _, Some _ => true
  | _, _, _, _, _, _, _, _ => false
  end.

(** A configuration with no required field missing. *)
Definition complete (cfg : config) : bool :=
  top_level_complete cfg
  && match cfg_collections cfg with
     | Some collections => forallb complete_collection collections
     | None => false
     end.

(** The run stops on an exception with nothing created and nothing
    written. *)
Definition fails_before_any_artifact (cfg : config) : Prop :=
  exists e, main_generate cfg = ([], Raise e).

(** The files [main] writes before it turns to the API descriptions. *)
Definition requirement_and_test_files (base : string)
  (requirements : list requirement) (tests : list test) : list file :=
  (map (fun req => create_requirement base (r_id req) (r_statement req)
                                      (r_parts req)) requirements
   ++ [create_requirements_class base "core" requirements]
   ++ map (fun t => create_abstract_test base (t_id t) (t_req_id t) (t_steps t))
          tests
   ++ [create_conformance_class base "core" tests])%list.

(** The files [main] writes between the conformance class and the
    sections. *)
Definition api_and_main_files (base : string) (include_asyncapi : bool)
  : list file :=
  ([ {| file_path := [base; "openapi.yaml"];
        file_content := Document "openapi" |} ]
   ++ (if include_asyncapi
       then [ {| file_path := [base; "asyncapi.yaml"];
                 file_content := Document "asyncapi" |} ]
       else [])
   ++ [ {| file_path := [base; (Path_name base ++ "_profile.adoc")%string];
           file_content := Document "main" |} ])%list.

(** A loaded configuration whose one collection has no [query_types]. *)
Definition config_without_query_types : config :=
  {| cfg_profile_name := Some "water_gauge";
     cfg_profile_title := Some "Water Gauge";
     cfg_collections :=
       Some [ {| rc_name := Some "water_gauge"; rc_query_types := None;
                 rc_formats := Some ["GeoJSON"] |} ];
     cfg_properties := Some [];
     cfg_filters := Some [];
     cfg_include_asyncapi := Some false;
     cfg_requirements := Some [openapi_requirement];
     cfg_tests :=
       Some [ {| t_id := "openapi"; t_req_id := "openapi";
                 t_steps := ["Send GET request to /openapi"] |} ] |}.

(** The string without its first [n] characters. *)
Fixpoint skip_chars (n : nat) (s : string) : string :=
  match n, s with
  | S n', String _ s' => skip_chars n' s'
  | _, _ => s
  end.

(** The steps of the test of a requirement as the specification words
    them: an id that starts with the marker of a known query type names
    the collection behind the marker, dashes turned into underscores; any
    other id takes the template branch. *)
Definition spec_suggested_steps (req : requirement) : result (list string) :=
  match find (fun qt => PyStr.startswith (marker qt) (r_id req))
             (dict_keys QUERY_TYPE_TEST_STEPS) with
  | Some qt =>
      let collection_name :=
        PyStr.replace "-" "_"
          (skip_chars (String.length (marker qt)) (r_id req)) in
      match dict_get qt QUERY_TYPE_TEST_STEPS with
      | Some steps => mapM (fun step => PyStr.format step collection_name) steps
      | None => Ok []
      end
  | None => t <- template_test req ;; Ok (t_steps t)
  end.

(** A collection whose name has the marker of a query type inside. *)
Definition nested_marker_collection : collection :=
  {| name := "obs_data_query_items_v2";
     query_types := ["items"];
     formats := ["GeoJSON"] |}.

(** The files [main] writes after the main document: the sections, the
    supporting files and the saved configuration. *)
Definition documentation_files (base : string) : list file :=
  (map (fun filename => {| file_path := [base; "sections"; filename];
                           file_content := Document "section" |})
       (section_files (Path_name base))
   ++ [ {| file_path := [base; "Makefile"];
           file_content := Document "makefile" |};
        {| file_path := [base; "README.md"];
           file_content := Document "readme" |};
        {| file_path := [base; "metanorma.yml"];
           file_content := Document "metanorma" |};
        {| file_path := [base; "custom_amqp_test"; "test_asyncapi_amqp.py"];
           file_content := Document "test_script" |};
        {| file_path := [base; "profile_config.yml"];
           file_content := Document "config" |} ])%list.

(* ================================================================== *)
(** * Properties *)

(** ** Strings *)

(** The string methods on the inputs the generator gives them. *)
Example split_on_dash :
  PyStr.split "-" "output-format-water-gauge"
  = Ok ["output"; "format"; "water"; "gauge"].
Proof. reflexivity. Qed.

Example split_keeps_empty_pieces :
  PyStr.split "data-query-items-" "data-query-items-a-data-query-items-"
  = Ok [""; "a-"; ""].
Proof. reflexivity. Qed.

Example replace_is_left_to_right :
  PyStr.replace "_class_" "_class-" "ats_class_class_core" = "ats_class-class_core".
Proof. reflexivity. Qed.

Example title_of_profile_name :
  PyStr.title (PyStr.replace "_" " " "water_gauge2x") = "Water Gauge2X".
Proof. reflexivity. Qed.

Example format_of_template :
  PyStr.format "GET /collections/{collection_name}/items/{{featureId}}" "a{b}"
  = Ok "GET /collections/a{b}/items/{featureId}".
Proof. reflexivity. Qed.

Example format_of_unknown_field :
  PyStr.format "{collection}" "water_gauge" = Raise (KeyError "collection").
Proof. reflexivity. Qed.

Lemma split_aux_nonempty (sep s : string) :
  forall skip cur, PyStr.split_aux sep skip cur s <> [].
Proof.
  induction s as [|c s IH]; intros skip cur; cbn [PyStr.split_aux].
  - discriminate.
  - destruct skip as [|k].
    + destruct (PyStr.startswith sep (String c s)).
      * discriminate.
      * apply IH.
    + apply IH.
Qed.

(** When a non-empty separator occurs in the string, the split has at
    least two pieces, so piece 1 exists. *)
Lemma split_aux_two (a : ascii) (sep' s : string) :
  forall cur,
    PyStr.contains (String a sep') s = true ->
    exists p0 p1 rest, PyStr.split_aux (String a sep') 0 cur s = p0 :: p1 :: rest.
Proof.
  induction s as [|c s IH]; intros cur H; cbn [PyStr.contains] in H.
  - discriminate H.
  - cbn [PyStr.split_aux].
    destruct (PyStr.startswith (String a sep') (String c s)) eqn:E.
    + destruct (PyStr.split_aux (String a sep')
                  (String.length (String a sep') - 1) "" s) as [|p1 rest] eqn:S.
      * exfalso. exact (split_aux_nonempty _ _ _ _ S).
      * exists cur, p1, rest. reflexivity.
    + cbn [orb] in H. exact (IH _ H).
Qed.

Lemma split_first_piece (a : ascii) (sep' s : string) :
  exists p, list_index (PyStr.split_aux (String a sep') 0 "" s) 0 = Ok p.
Proof.
  destruct (PyStr.split_aux (String a sep') 0 "" s) as [|p rest] eqn:S.
  - exfalso. exact (split_aux_nonempty _ _ _ _ S).
  - exists p. reflexivity.
Qed.

(** ** The test synthesizer is total and pairs tests with requirements *)

Lemma generate_query_type_test_known (qt : string) :
  In qt (dict_keys QUERY_TYPE_TEST_STEPS) ->
  forall collection_name req_id, exists steps,
    generate_query_type_test collection_name qt req_id
    = Ok {| t_id := req_id; t_req_id := req_id; t_steps := steps |}.
Proof.
  intros Hin collection_name req_id.
  cbn in Hin.
  repeat (destruct Hin as [<- | Hin]; [eexists; reflexivity|]).
  contradiction.
Qed.

Lemma template_test_total (req : requirement) :
  exists steps,
    template_test req
    = Ok {| t_id := r_id req; t_req_id := r_id req; t_steps := steps |}.
Proof.
  unfold template_test.
  destruct (PyStr.contains "-" (r_id req)).
  - cbn [PyStr.split bind].
    destruct (split_first_piece "-" "" (r_id req)) as [p ->].
    cbn [bind]. eexists. reflexivity.
  - cbn [bind]. eexists. reflexivity.
Qed.

Lemma suggested_test_total (req : requirement) :
  exists steps,
    suggested_test req
    = Ok {| t_id := r_id req; t_req_id := r_id req; t_steps := steps |}.
Proof.
  unfold suggested_test.
  destruct (find _ _) as [qt|] eqn:F.
  - apply find_some in F. destruct F as [Hin Hc].
    unfold marker in *. cbn [append PyStr.split bind] in *.
    match type of Hc with
    | PyStr.contains (String ?a ?sep') _ = true =>
        destruct (split_aux_two a sep' (r_id req) "" Hc) as (p0 & p1 & rest & ->)
    end.
    cbn [list_index nth_error bind].
    apply generate_query_type_test_known. exact Hin.
  - apply template_test_total.
Qed.

(** C1. For every requirement list, [generate_suggested_tests] returns (it
    raises nothing) a list with exactly one test per requirement, in the
    order of the requirements; the id of each test is the id of its
    requirement and equals the test's target requirement id.  Nothing is
    skipped, whatever the id looks like. *)
Theorem generate_suggested_tests_pairs_every_requirement :
  forall requirements : list requirement,
  exists tests : list test,
    generate_suggested_tests requirements = Ok tests
    /\ List.length tests = List.length requirements
    /\ map t_id tests = map r_id requirements
    /\ Forall (fun t => t_id t = t_req_id t) tests.
Proof.
  unfold generate_suggested_tests.
  induction requirements as [|req reqs IH].
  - exists []. cbn. repeat split. constructor.
  - destruct IH as (tests & Hrun & Hlen & Hids & Hpair).
    destruct (suggested_test_total req) as (steps & Hreq).
    exists ({| t_id := r_id req; t_req_id := r_id req; t_steps := steps |} :: tests).
    cbn [mapM]. rewrite Hreq, Hrun. cbn.
    repeat split.
    + now rewrite Hlen.
    + now rewrite Hids.
    + constructor; [reflexivity | exact Hpair].
Qed.

(** ** The worked example of the specification *)

(** C2. For the single collection [water_gauge] with query types items and
    position and format GeoJSON, no event API and no filters, requirement
    synthesis produces the ids openapi, collection-water-gauge,
    data-query-items-water-gauge, data-query-position-water-gauge and
    output-format-water-gauge, in this order; test synthesis over that list
    gives the items requirement a test of 5 steps and the position
    requirement a test of 3 steps. *)
Theorem water_gauge_example :
  exists requirements tests,
    generate_suggested_requirements [water_gauge] false [] = Ok requirements
    /\ map r_id requirements
       = [ "openapi"; "collection-water-gauge"; "data-query-items-water-gauge";
           "data-query-position-water-gauge"; "output-format-water-gauge" ]
    /\ generate_suggested_tests requirements = Ok tests
    /\ steps_of "data-query-items-water-gauge" tests = Some 5
    /\ steps_of "data-query-position-water-gauge" tests = Some 3.
Proof.
  eexists. eexists.
  split; [vm_compute; reflexivity|].
  split; [reflexivity|].
  split; [vm_compute; reflexivity|].
  split; reflexivity.
Qed.

(** ** Requirement synthesis: unknown query types *)

Lemma dict_get_In (V : Type) (k : string) (d : dict V) (v : V) :
  dict_get k d = Some v -> In (k, v) d.
Proof.
  induction d as [|[k' v'] d IH]; cbn [dict_get]; intros H.
  - discriminate H.
  - destruct (String.eqb_spec k k') as [->|_].
    + injection H as ->. now left.
    + right. exact (IH H).
Qed.

Lemma generate_query_type_requirement_unknown (collection_name qt : string) :
  known_query_type qt = false ->
  generate_query_type_requirement collection_name qt = Ok None.
Proof.
  unfold known_query_type, dict_mem, generate_query_type_requirement.
  destruct (dict_get qt QUERY_TYPE_REQUIREMENTS); [discriminate | reflexivity].
Qed.

Lemma generate_query_type_requirement_known (collection_name qt : string) :
  known_query_type qt = true ->
  exists statement parts,
    generate_query_type_requirement collection_name qt
    = Ok (Some {| r_id := query_requirement_id collection_name qt;
                  r_statement := statement; r_parts := parts |}).
Proof.
  unfold known_query_type, dict_mem, generate_query_type_requirement.
  destruct (dict_get qt QUERY_TYPE_REQUIREMENTS) as [template|] eqn:G;
    [intros _ | discriminate].
  apply dict_get_In in G. cbn in G.
  repeat (destruct G as [G | G];
          [injection G as <- <-; eexists; eexists; reflexivity|]).
  contradiction.
Qed.

Lemma query_type_requirements_spec (collection_name : string) (qts : list string) :
  exists reqs,
    query_type_requirements collection_name qts = Ok reqs
    /\ query_type_requirements collection_name (List.filter known_query_type qts)
       = Ok reqs
    /\ map r_id reqs
       = map (query_requirement_id collection_name)
             (List.filter known_query_type qts).
Proof.
  induction qts as [|qt qts (reqs & Hall & Hknown & Hids)].
  - exists []. repeat split.
  - cbn [query_type_requirements List.filter]. rewrite Hall.
    destruct (known_query_type qt) eqn:K.
    + destruct (generate_query_type_requirement_known collection_name qt K)
        as (st & ps & Hgen).
      cbn [query_type_requirements map]. rewrite Hgen, Hknown. cbn [bind].
      eexists. repeat split. cbn [map r_id]. now rewrite Hids.
    + rewrite (generate_query_type_requirement_unknown collection_name qt K).
      cbn [bind]. exists reqs. repeat split; assumption.
Qed.

Lemma all_query_type_requirements_spec (collections : list collection) :
  exists reqs,
    all_query_type_requirements collections = Ok reqs
    /\ all_query_type_requirements (map known_only collections) = Ok reqs
    /\ map r_id reqs
       = flat_map (fun coll =>
                     map (query_requirement_id (name coll))
                         (List.filter known_query_type (query_types coll)))
                  collections.
Proof.
  induction collections as [|coll colls (reqs & Hall & Hknown & Hids)].
  - exists []. repeat split.
  - destruct (query_type_requirements_spec (name coll) (query_types coll))
      as (here & Hhere & Hhere' & Hhids).
    exists (here ++ reqs)%list.
    cbn [all_query_type_requirements map known_only name query_types flat_map].
    rewrite Hhere, Hhere', Hall, Hknown. cbn [bind].
    repeat split. now rewrite map_app, Hhids, Hids.
Qed.

Lemma map_known_only (A : Type) (f : collection -> A) (collections : list collection) :
  (forall coll, f (known_only coll) = f coll) ->
  map f (map known_only collections) = map f collections.
Proof.
  intros H. rewrite map_map. apply map_ext. exact H.
Qed.

(** Requirement synthesis raises nothing. *)
Lemma generate_suggested_requirements_total (collections : list collection)
  (include_asyncapi : bool) (filters : list filter) :
  exists requirements,
    generate_suggested_requirements collections include_asyncapi filters
    = Ok requirements.
Proof.
  destruct (all_query_type_requirements_spec collections) as (qreqs & Hall & _).
  unfold generate_suggested_requirements. rewrite Hall. cbn [bind].
  eexists. reflexivity.
Qed.

(** C3. A query type that is not a key of the query-type rule table yields
    no requirement and no error: [generate_query_type_requirement] returns
    nothing for it, and requirement synthesis succeeds with exactly the
    list it produces for the configuration in which the unknown query types
    are struck out, so every known pair still has its requirement. *)
Theorem unknown_query_types_are_dropped_silently :
  forall (collections : list collection) (include_asyncapi : bool)
         (filters : list filter),
    (forall collection_name qt,
        known_query_type qt = false ->
        generate_query_type_requirement collection_name qt = Ok None)
    /\ exists requirements,
        generate_suggested_requirements collections include_asyncapi filters
        = Ok requirements
        /\ generate_suggested_requirements (map known_only collections)
             include_asyncapi filters
           = Ok requirements
        /\ forall coll qt,
            In coll collections -> In qt (query_types coll) ->
            known_query_type qt = true ->
            In (query_requirement_id (name coll) qt) (map r_id requirements).
Proof.
  intros collections include_asyncapi filters.
  split; [exact generate_query_type_requirement_unknown|].
  destruct (all_query_type_requirements_spec collections)
    as (qreqs & Hall & Hknown & Hids).
  unfold generate_suggested_requirements.
  rewrite Hall, Hknown. cbn [bind].
  eexists. split; [reflexivity|]. split.
  - assert (E : forall (A : Type) (f : collection -> A),
               (forall coll, f (known_only coll) = f coll) ->
               map f (map known_only collections) = map f collections)
      by (intros A f Hf; now apply map_known_only).
    rewrite (E _ collection_requirement), (E _ asyncapi_requirement),
      (E _ (fun coll => generate_format_requirement (name coll) (formats coll)));
      reflexivity.
  - intros coll qt Hc Hq K.
    rewrite !map_app. cbn [map app]. right.
    apply in_or_app. right. apply in_or_app. left.
    rewrite Hids. apply in_flat_map. exists coll. split; [exact Hc|].
    apply in_map. apply filter_In. now split.
Qed.

(** ** Output-format requirements *)

Lemma format_parts_fold (fmts : list string) :
  forall acc,
    fold_left (fun acc fmt => (acc ++ format_clauses fmt)%list) fmts acc
    = (acc ++ flat_map format_clauses fmts)%list.
Proof.
  induction fmts as [|fmt fmts IH]; intros acc; cbn [fold_left flat_map].
  - now rewrite app_nil_r.
  - now rewrite IH, app_assoc.
Qed.

Lemma generate_format_requirement_parts (collection_name : string)
  (fmts : list string) :
  r_parts (generate_format_requirement collection_name fmts)
  = format_header collection_name :: flat_map format_clauses fmts.
Proof.
  unfold generate_format_requirement. cbn [r_parts].
  rewrite format_parts_fold. reflexivity.
Qed.

(** The output-format requirement of a collection is in the synthesized
    list, and depends on that collection only. *)
Lemma format_requirement_in_suggested (collections : list collection)
  (include_asyncapi : bool) (filters : list filter)
  (requirements : list requirement) (coll : collection) :
  generate_suggested_requirements collections include_asyncapi filters
  = Ok requirements ->
  In coll collections ->
  In (generate_format_requirement (name coll) (formats coll)) requirements.
Proof.
  unfold generate_suggested_requirements. intros H Hin.
  destruct (all_query_type_requirements collections) as [qreqs|e];
    cbn [bind] in H; [|discriminate H].
  injection H as <-.
  cbn [app]. right.
  apply in_or_app. right. apply in_or_app. right. apply in_or_app. left.
  apply (in_map (fun c => generate_format_requirement (name c) (formats c))).
  exact Hin.
Qed.

(** C5 (as the code has it). The parts of the output-format requirement of
    a collection are the header clause followed, label by label and in the
    order of the labels, by the clause list the format table registers for
    the lowercased label, or, when the table has no such key, by the one
    fallback clause; the fallback clause names the lowercased label.  Two
    labels that differ by case only expand alike, no label is left out,
    and the requirement is the one requirement synthesis emits for the
    collection whatever the other collections declare. *)
Theorem format_requirement_expands_every_label :
  forall (collection_name : string) (fmts : list string),
    r_parts (generate_format_requirement collection_name fmts)
    = format_header collection_name
      :: flat_map (fun fmt =>
                     match dict_get (PyStr.lower fmt) FORMAT_REQUIREMENTS with
                     | Some clauses => clauses
                     | None => [fallback_clause (PyStr.lower fmt)]
                     end) fmts
    /\ (forall fmt fmt',
           PyStr.lower fmt = PyStr.lower fmt' ->
           format_clauses fmt = format_clauses fmt')
    /\ r_parts (generate_format_requirement collection_name ["xml"])
       = [format_header collection_name; fallback_clause "xml"]
    /\ (forall collections include_asyncapi filters requirements coll,
           generate_suggested_requirements collections include_asyncapi filters
           = Ok requirements ->
           In coll collections ->
           In (generate_format_requirement (name coll) (formats coll))
              requirements).
Proof.
  intros collection_name fmts. repeat split.
  - apply generate_format_requirement_parts.
  - intros fmt fmt' H. unfold format_clauses. now rewrite H.
  - intros. eapply format_requirement_in_suggested; eassumption.
Qed.

(** The claim as the specification words it fails on an upper-case label
    the table does not know: the clause for [XML] names [xml]. *)
Lemma fallback_clause_names_lowercased_label :
  r_parts (generate_format_requirement "water_gauge" ["XML"])
  <> format_header "water_gauge" :: flat_map spec_format_clauses ["XML"]
  /\ r_parts (generate_format_requirement "water_gauge" ["XML"])
     = [format_header "water_gauge"; fallback_clause "xml"].
Proof.
  split; [|reflexivity].
  vm_compute. intros H. discriminate H.
Qed.

Lemma format_requirement_expands_every_label_witness :
  format_clauses "GeoJSON" = format_clauses "geojson"
  /\ In (generate_format_requirement "water_gauge" ["GeoJSON"])
        [ openapi_requirement;
          collection_requirement
            {| name := "water_gauge"; query_types := []; formats := ["GeoJSON"] |};
          generate_format_requirement "water_gauge" ["GeoJSON"] ].
Proof.
  pose proof (format_requirement_expands_every_label "water_gauge" ["GeoJSON"])
    as (_ & Hcase & _ & Hin).
  split.
  - apply Hcase. reflexivity.
  - apply (Hin [ {| name := "water_gauge"; query_types := [];
                    formats := ["GeoJSON"] |} ] false [] _
               {| name := "water_gauge"; query_types := [];
                  formats := ["GeoJSON"] |}).
    + reflexivity.
    + left. reflexivity.
Defined.

(** C10. Whatever the format list, the empty one included, the parts of
    the output-format requirement start with the header clause of the
    collection, so they are never empty; with no format declared they are
    the header alone, and requirement synthesis still emits the
    requirement.  The fallback clause of a label the table does not know
    names the lowercased label: [XML] gives the clause naming [xml]. *)
Theorem format_requirement_always_has_header :
  forall (collection_name : string) (fmts : list string),
    (exists clauses,
        r_parts (generate_format_requirement collection_name fmts)
        = ("Collection " ++ collection_name
           ++ " SHALL support the following formats:") :: clauses
        /\ clauses = flat_map format_clauses fmts)
    /\ r_parts (generate_format_requirement collection_name fmts) <> []
    /\ r_parts (generate_format_requirement collection_name [])
       = [ "Collection " ++ collection_name
           ++ " SHALL support the following formats:" ]
    /\ r_id (generate_format_requirement collection_name fmts)
       = "output-format-" ++ dash_case collection_name
    /\ (forall fmt,
           dict_get (PyStr.lower fmt) FORMAT_REQUIREMENTS = None ->
           format_clauses fmt
           = [ "A format with the label " ++ PyStr.lower fmt
               ++ " SHALL be supported" ])
    /\ format_clauses "XML" = [ "A format with the label xml SHALL be supported" ]
    /\ (forall collections include_asyncapi filters,
           exists requirements,
             generate_suggested_requirements
               ({| name := collection_name; query_types := []; formats := [] |}
                  :: collections) include_asyncapi filters
             = Ok requirements
             /\ In {| r_id := "output-format-" ++ dash_case collection_name;
                      r_statement := "Output format support for " ++ collection_name;
                      r_parts := [ "Collection " ++ collection_name
                                   ++ " SHALL support the following formats:" ] |}
                   requirements).
Proof.
  intros collection_name fmts.
  pose proof (generate_format_requirement_parts collection_name fmts) as Hparts.
  repeat split.
  - eexists. split; [exact Hparts | reflexivity].
  - rewrite Hparts. discriminate.
  - intros fmt H. unfold format_clauses. now rewrite H.
  - intros collections include_asyncapi filters.
    destruct (generate_suggested_requirements_total
                ({| name := collection_name; query_types := []; formats := [] |}
                   :: collections) include_asyncapi filters)
      as (requirements & Hrun).
    exists requirements. split; [exact Hrun|].
    apply (format_requirement_in_suggested _ _ _ _
             {| name := collection_name; query_types := []; formats := [] |} Hrun).
    left. reflexivity.
Qed.

Lemma format_requirement_always_has_header_witness :
  format_clauses "Shapefile"
  = [ "A format with the label shapefile SHALL be supported" ].
Proof.
  pose proof (format_requirement_always_has_header "water_gauge" [])
    as (_ & _ & _ & _ & Hfallback & _).
  apply (Hfallback "Shapefile"). reflexivity.
Defined.

(** ** Uniqueness of requirement ids *)

Lemma generate_suggested_requirements_ids (collections : list collection)
  (include_asyncapi : bool) (filters : list filter)
  (requirements : list requirement) :
  generate_suggested_requirements collections include_asyncapi filters
  = Ok requirements ->
  map r_id requirements = suggested_ids collections include_asyncapi filters.
Proof.
  unfold generate_suggested_requirements, suggested_ids, collection_ids.
  destruct (all_query_type_requirements_spec collections)
    as (qreqs & -> & _ & Hids).
  cbn [bind]. intros H. injection H as <-.
  cbn [map app r_id openapi_requirement]. f_equal.
  rewrite !map_app, !map_map, Hids. unfold query_ids.
  do 3 f_equal.
  destruct include_asyncapi, filters; cbn [map]; rewrite ?map_map; reflexivity.
Qed.

Lemma append_inj_l (p a b : string) : p ++ a = p ++ b -> a = b.
Proof.
  induction p as [|c p IH]; cbn [append]; intros H.
  - exact H.
  - injection H as H. exact (IH H).
Qed.

Lemma known_query_type_cases (qt : string) :
  known_query_type qt = true ->
  In qt (dict_keys QUERY_TYPE_REQUIREMENTS).
Proof.
  unfold known_query_type, dict_mem.
  destruct (dict_get qt QUERY_TYPE_REQUIREMENTS) as [template|] eqn:G;
    [intros _ | discriminate].
  apply dict_get_In in G.
  exact (in_map fst _ _ G).
Qed.

(** A known query type has no dash, so the id determines both the query
    type and the dash-cased collection name. *)
Lemma query_requirement_id_inj (n1 q1 n2 q2 : string) :
  known_query_type q1 = true -> known_query_type q2 = true ->
  query_requirement_id n1 q1 = query_requirement_id n2 q2 ->
  q1 = q2 /\ dash_case n1 = dash_case n2.
Proof.
  intros K1 K2. unfold query_requirement_id.
  apply known_query_type_cases in K1. apply known_query_type_cases in K2.
  generalize (dash_case n1) (dash_case n2). intros d1 d2.
  cbn in K1, K2.
  repeat (destruct K1 as [<- | K1]; [|]); try contradiction;
    repeat (destruct K2 as [<- | K2]; [|]); try contradiction;
    cbn [append]; intros H; try discriminate H;
    split; congruence.
Qed.

Lemma NoDup_map_inj (A B : Type) (f : A -> B) (l : list A) :
  (forall x y, In x l -> In y l -> f x = f y -> x = y) ->
  NoDup l -> NoDup (map f l).
Proof.
  intros Hinj Hnd. induction Hnd as [|a l Hfresh Hnd IH]; cbn [map].
  - constructor.
  - constructor.
    + intros Hin. apply in_map_iff in Hin. destruct Hin as (y & E & Hy).
      apply Hfresh.
      rewrite <- (Hinj y a (or_intror Hy) (or_introl eq_refl) E). exact Hy.
    + apply IH. intros x y Hx Hy. apply Hinj; now right.
Qed.

Lemma NoDup_collection_ids (prefix : string) (collections : list collection) :
  NoDup (map (fun coll => dash_case (name coll)) collections) <->
  NoDup (collection_ids prefix collections).
Proof.
  unfold collection_ids.
  rewrite <- (map_map (fun coll => dash_case (name coll)) (append prefix)).
  split.
  - apply NoDup_map_inj. intros a b _ _. apply append_inj_l.
  - apply NoDup_map_inv.
Qed.

Lemma NoDup_query_ids (collections : list collection) :
  NoDup (map (fun coll => dash_case (name coll)) collections) ->
  (forall coll, In coll collections ->
                NoDup (List.filter known_query_type (query_types coll))) ->
  NoDup (query_ids collections).
Proof.
  unfold query_ids.
  induction collections as [|coll colls IH]; cbn [flat_map map]; intros Hn Hq.
  - constructor.
  - apply NoDup_cons_iff in Hn. destruct Hn as [Hfresh Hn].
    apply NoDup_app.
    + apply NoDup_map_inj.
      * intros x y Hx Hy E.
        apply filter_In in Hx. apply filter_In in Hy.
        now destruct (query_requirement_id_inj _ _ _ _ (proj2 Hx) (proj2 Hy) E).
      * apply Hq. now left.
    + apply IH; [exact Hn|]. intros c Hc. apply Hq. now right.
    + intros a Ha Hb.
      apply in_map_iff in Ha. destruct Ha as (q & <- & Hq1).
      apply in_flat_map in Hb. destruct Hb as (c' & Hc' & Hb).
      apply in_map_iff in Hb. destruct Hb as (q' & E & Hq2).
      apply filter_In in Hq1. apply filter_In in Hq2.
      destruct (query_requirement_id_inj _ _ _ _ (proj2 Hq2) (proj2 Hq1) E)
        as [_ Hd].
      apply Hfresh. rewrite <- Hd.
      exact (in_map (fun c => dash_case (name c)) _ _ Hc').
Qed.

Lemma NoDup_flat_map_inner (A B : Type) (f : A -> list B) (l : list A) (x : A) :
  NoDup (flat_map f l) -> In x l -> NoDup (f x).
Proof.
  induction l as [|a l IH]; cbn [flat_map]; intros H Hin.
  - contradiction.
  - destruct Hin as [-> | Hin].
    + exact (NoDup_app_remove_r _ _ H).
    + exact (IH (NoDup_app_remove_l _ _ H) Hin).
Qed.

(** Groups of ids with pairwise different tags, each free of duplicates,
    concatenate to a list free of duplicates. *)
Lemma NoDup_tagged_groups (groups : list (string * list string)) :
  NoDup (map fst groups) ->
  Forall (fun g => NoDup (snd g) /\ Forall (fun s => id_tag s = fst g) (snd g))
         groups ->
  NoDup (concat (map snd groups)).
Proof.
  induction groups as [|[t g] groups IH]; cbn [map concat fst snd]; intros Ht Hg.
  - constructor.
  - apply NoDup_cons_iff in Ht. destruct Ht as [Hfresh Ht].
    apply Forall_cons_iff in Hg. destruct Hg as [[Hnd Htag] Hg].
    cbn [fst snd] in Hnd, Htag.
    apply NoDup_app; [exact Hnd | exact (IH Ht Hg) |].
    intros a Ha Hb.
    apply in_concat in Hb. destruct Hb as (g' & Hg' & Ha').
    apply in_map_iff in Hg'. destruct Hg' as ([t' g''] & <- & Hin).
    rewrite Forall_forall in Htag, Hg.
    destruct (Hg _ Hin) as [_ Htag']. rewrite Forall_forall in Htag'.
    cbn [fst snd] in *.
    apply Hfresh. rewrite <- (Htag _ Ha), (Htag' _ Ha').
    exact (in_map fst _ _ Hin).
Qed.

Lemma collection_ids_tag (prefix : string) (collections : list collection)
  (a b : ascii) (rest : string) :
  prefix = String a (String b rest) ->
  Forall (fun s => id_tag s = String a (String b ""))
         (collection_ids prefix collections).
Proof.
  intros ->. unfold collection_ids. apply Forall_map, Forall_forall.
  intros coll _. reflexivity.
Qed.

Lemma query_ids_tag (collections : list collection) :
  Forall (fun s => id_tag s = "da") (query_ids collections).
Proof.
  unfold query_ids. apply Forall_flat_map, Forall_forall. intros coll _.
  apply Forall_map, Forall_forall. intros qt _. reflexivity.
Qed.

Lemma NoDup_suggested_ids (collections : list collection)
  (include_asyncapi : bool) (filters : list filter) :
  NoDup (suggested_ids collections include_asyncapi filters) <->
  NoDup (map (fun coll => dash_case (name coll)) collections)
  /\ (forall coll, In coll collections ->
                   NoDup (List.filter known_query_type (query_types coll))).
Proof.
  unfold suggested_ids. split.
  - intros H. apply NoDup_app_remove_l in H. split.
    + apply NoDup_app_remove_r in H.
      now apply (NoDup_collection_ids "collection-").
    + intros coll Hin.
      apply NoDup_app_remove_l, NoDup_app_remove_r in H.
      apply (NoDup_flat_map_inner _ _ _ _ coll) in H; [|exact Hin].
      exact (NoDup_map_inv _ _ H).
  - intros [Hn Hq].
    pose proof (NoDup_tagged_groups
      [ ("op", ["openapi"]);
        ("co", collection_ids "collection-" collections);
        ("da", query_ids collections);
        ("ou", collection_ids "output-format-" collections);
        ("as", if include_asyncapi
               then collection_ids "asyncapi-" collections else []);
        ("fi", match filters with [] => [] | _ :: _ => ["filters"] end) ]) as G.
    cbn [map concat fst snd] in G. rewrite app_nil_r in G.
    apply G; clear G.
    + repeat constructor; cbn; intuition discriminate.
    + repeat (apply Forall_cons; [cbn [fst snd]; split|]); try apply Forall_nil.
      * repeat constructor. intros [].
      * now apply NoDup_collection_ids.
      * now apply (collection_ids_tag _ _ _ _ _ eq_refl).
      * now apply NoDup_query_ids.
      * apply query_ids_tag.
      * now apply NoDup_collection_ids.
      * now apply (collection_ids_tag _ _ _ _ _ eq_refl).
      * destruct include_asyncapi; [now apply NoDup_collection_ids | constructor].
      * destruct include_asyncapi;
          [now apply (collection_ids_tag _ _ _ _ _ eq_refl) | constructor].
      * destruct filters; repeat constructor. intros [].
      * destruct filters; repeat constructor.
Qed.

(** C6 (as the code has it). The ids of the synthesized requirements are
    pairwise distinct exactly when the dash-cased collection names are
    pairwise distinct and no collection lists a known query type twice:
    nothing is deduplicated, and names that differ by underscore versus
    dash only give the same ids. *)
Theorem requirement_ids_distinct_iff :
  forall (collections : list collection) (include_asyncapi : bool)
         (filters : list filter) (requirements : list requirement),
    generate_suggested_requirements collections include_asyncapi filters
    = Ok requirements ->
    (NoDup (map r_id requirements) <->
     NoDup (map (fun coll => dash_case (name coll)) collections)
     /\ (forall coll, In coll collections ->
                      NoDup (List.filter known_query_type (query_types coll)))).
Proof.
  intros collections include_asyncapi filters requirements Hrun.
  rewrite (generate_suggested_requirements_ids _ _ _ _ Hrun).
  apply NoDup_suggested_ids.
Qed.

Lemma requirement_ids_distinct_iff_witness :
  exists requirements,
    generate_suggested_requirements [water_gauge] false [] = Ok requirements
    /\ NoDup (map r_id requirements).
Proof.
  eexists. split; [vm_compute; reflexivity|].
  apply (proj2 (requirement_ids_distinct_iff [water_gauge] false [] _ eq_refl)).
  split.
  - cbn. repeat constructor. intros [].
  - intros coll [<- | []]. cbn.
    repeat constructor; cbn; intuition discriminate.
Defined.

(** The claim as worded fails: a query type listed twice gives one id
    twice, and so do two collections whose names differ by underscore
    versus dash. *)
Lemma duplicate_requirement_ids :
  (exists requirements,
      generate_suggested_requirements
        [ {| name := "water_gauge"; query_types := ["items"; "items"];
             formats := ["GeoJSON"] |} ] false []
      = Ok requirements
      /\ ~ NoDup (map r_id requirements))
  /\ (exists requirements,
         generate_suggested_requirements
           [ {| name := "water_gauge"; query_types := ["items"];
                formats := ["GeoJSON"] |};
             {| name := "water-gauge"; query_types := ["position"];
                formats := ["CSV"] |} ] false []
         = Ok requirements
         /\ ~ NoDup (map r_id requirements)).
Proof.
  split; eexists; (split; [vm_compute; reflexivity|]); cbn; intros H.
  - apply NoDup_cons_iff in H. destruct H as [_ H].
    apply NoDup_cons_iff in H. destruct H as [_ H].
    apply NoDup_cons_iff in H. destruct H as [H _].
    apply H. left. reflexivity.
  - apply NoDup_cons_iff in H. destruct H as [_ H].
    apply NoDup_cons_iff in H. destruct H as [H _].
    apply H. left. reflexivity.
Qed.

Lemma unknown_query_types_are_dropped_silently_witness :
  generate_query_type_requirement "water_gauge" "radius" = Ok None
  /\ exists requirements,
      generate_suggested_requirements
        [ {| name := "water_gauge"; query_types := ["radius"; "items"];
             formats := ["GeoJSON"] |} ] false []
      = Ok requirements
      /\ In "data-query-items-water-gauge" (map r_id requirements).
Proof.
  destruct (unknown_query_types_are_dropped_silently
              [ {| name := "water_gauge"; query_types := ["radius"; "items"];
                   formats := ["GeoJSON"] |} ] false [])
    as (Hnone & requirements & Hrun & _ & Hin).
  split.
  - apply Hnone. reflexivity.
  - exists requirements. split; [exact Hrun|].
    apply (Hin {| name := "water_gauge"; query_types := ["radius"; "items"];
                  formats := ["GeoJSON"] |} "items").
    + left. reflexivity.
    + right. left. reflexivity.
    + reflexivity.
Defined.

(** ** The HTTP API description of an items collection *)

Lemma eqb_append_l (p a b : string) :
  String.eqb (p ++ a) (p ++ b) = String.eqb a b.
Proof.
  induction p as [|c p IH]; cbn [append String.eqb].
  - reflexivity.
  - now rewrite Ascii.eqb_refl.
Qed.

Lemma eqb_append_self (n : string) (c : ascii) (s : string) :
  String.eqb (n ++ String c s) n = false.
Proof.
  induction n as [|c' n IH]; cbn [append String.eqb].
  - reflexivity.
  - now rewrite Ascii.eqb_refl.
Qed.

Lemma dict_set_mem (V : Type) (k : string) (v : V) (d : dict V) :
  In k (dict_keys (dict_set k v d)).
Proof.
  induction d as [|[k' v'] d IH]; cbn [dict_set].
  - now left.
  - destruct (String.eqb_spec k k') as [-> | _]; cbn; [now left | now right].
Qed.

Lemma dict_set_keep (V : Type) (k : string) (v : V) (d : dict V) (k0 : string) :
  In k0 (dict_keys d) -> In k0 (dict_keys (dict_set k v d)).
Proof.
  induction d as [|[k' v'] d IH]; cbn [dict_set]; intros H.
  - destruct H.
  - destruct (String.eqb k k'); cbn in *; destruct H; auto.
Qed.

Lemma fold_left_keep (A B : Type) (f : B -> A -> B) (P : B -> Prop) :
  (forall b a, P b -> P (f b a)) ->
  forall l b, P b -> P (fold_left f l b).
Proof.
  intros Hf. induction l as [|a l IH]; cbn [fold_left]; intros b Hb.
  - exact Hb.
  - apply IH, Hf, Hb.
Qed.

Lemma add_query_type_paths_keep (collection_name qt : string)
  (paths : dict path_item) (k0 : string) :
  In k0 (dict_keys paths) ->
  In k0 (dict_keys (add_query_type_paths collection_name qt paths)).
Proof.
  intros H. unfold add_query_type_paths.
  destruct (String.eqb qt "items"); [|destruct (String.eqb qt "locations")];
    repeat apply dict_set_keep; exact H.
Qed.

Lemma add_collection_keep (base_name : string) (properties : list string)
  (include_asyncapi : bool) (acc : dict path_item * dict feature_schema)
  (coll : collection) (p s : string) :
  In p (dict_keys (fst acc)) /\ In s (dict_keys (snd acc)) ->
  In p (dict_keys (fst (add_collection base_name properties include_asyncapi
                                        acc coll)))
  /\ In s (dict_keys (snd (add_collection base_name properties include_asyncapi
                                          acc coll))).
Proof.
  destruct acc as [paths schemas]. cbn [fst snd add_collection]. intros [Hp Hs].
  split.
  - apply (fold_left_keep _ _
             (fun ps qt => add_query_type_paths (name coll) qt ps)
             (fun ps => In p (dict_keys ps))).
    + intros ps qt. apply add_query_type_paths_keep.
    + now apply dict_set_keep.
  - now apply dict_set_keep.
Qed.

(** C7 (as the code has it). For a configuration whose one collection has
    the query types [items] exactly, the paths of the HTTP API description
    are three, in this order: the collection-metadata path, the items path
    and the single-item path; [components.schemas] has exactly one
    entry, keyed by the title-cased collection name.  In any
    configuration, a collection with the query types [items] exactly has
    these three paths and this schema entry in the description. *)
Theorem items_collection_paths_and_schema :
  forall (base_name collection_name : string) (fmts properties : list string)
         (include_asyncapi : bool),
    (let spec :=
       openapi_document base_name
         [ {| name := collection_name; query_types := ["items"]; formats := fmts |} ]
         properties include_asyncapi in
     dict_keys (oa_paths spec)
     = [ "/collections/" ++ collection_name;
         "/collections/" ++ collection_name ++ "/items";
         "/collections/" ++ collection_name ++ "/items/{featureId}" ]
     /\ dict_keys (oa_schemas spec)
        = [ PyStr.replace "_" "" (PyStr.title collection_name) ++ "Feature" ])
    /\ (forall collections coll,
           In coll collections ->
           name coll = collection_name ->
           query_types coll = ["items"] ->
           let spec :=
             openapi_document base_name collections properties include_asyncapi in
           In ("/collections/" ++ collection_name) (dict_keys (oa_paths spec))
           /\ In ("/collections/" ++ collection_name ++ "/items")
                 (dict_keys (oa_paths spec))
           /\ In ("/collections/" ++ collection_name ++ "/items/{featureId}")
                 (dict_keys (oa_paths spec))
           /\ In (PyStr.replace "_" "" (PyStr.title collection_name) ++ "Feature")
                 (dict_keys (oa_schemas spec))).
Proof.
  intros base_name collection_name fmts properties include_asyncapi.
  split.
  - cbn -[PyStr.replace PyStr.title String.eqb append add_query_type_paths].
    split; [|reflexivity].
    unfold add_query_type_paths. rewrite String.eqb_refl.
    cbn [dict_set].
    rewrite !eqb_append_l, eqb_append_self.
    cbn [dict_set].
    rewrite !eqb_append_l, eqb_append_self.
    reflexivity.
  - intros collections coll Hin Hname Hqts.
    apply in_split in Hin. destruct Hin as (before & after & ->).
    unfold openapi_document. rewrite fold_left_app. cbn [fold_left].
    set (acc := fold_left _ before _).
    set (step := add_collection base_name properties include_asyncapi).
    assert (Hstep :
              forall p,
                In p [ "/collections/" ++ collection_name;
                       "/collections/" ++ collection_name ++ "/items";
                       "/collections/" ++ collection_name ++ "/items/{featureId}" ] ->
                In p (dict_keys (fst (step acc coll)))
                /\ In (PyStr.replace "_" "" (PyStr.title collection_name) ++ "Feature")
                      (dict_keys (snd (step acc coll)))).
    { intros p Hp. unfold step. destruct acc as [paths schemas].
      cbn [add_collection fst snd]. rewrite Hname, Hqts. cbn [fold_left].
      unfold add_query_type_paths. rewrite String.eqb_refl.
      split; [|apply dict_set_mem].
      destruct Hp as [<- | [<- | [<- | []]]].
      + do 2 apply dict_set_keep. apply dict_set_mem.
      + apply dict_set_keep. apply dict_set_mem.
      + apply dict_set_mem. }
    assert (Hkeep :
              forall p s,
                In p (dict_keys (fst (step acc coll)))
                /\ In s (dict_keys (snd (step acc coll))) ->
                In p (dict_keys (fst (fold_left step after (step acc coll))))
                /\ In s (dict_keys (snd (fold_left step after (step acc coll))))).
    { intros p s.
      apply (fold_left_keep _ _ step
               (fun a => In p (dict_keys (fst a)) /\ In s (dict_keys (snd a)))).
      intros a c. apply add_collection_keep. }
    destruct (fold_left step after (step acc coll)) as [paths schemas] eqn:E.
    cbn [oa_paths oa_schemas]. cbn [fst snd] in Hkeep.
    repeat split.
    + apply (Hkeep _ _ (Hstep _ (or_introl eq_refl))).
    + apply (Hkeep _ _ (Hstep _ (or_intror (or_introl eq_refl)))).
    + apply (Hkeep _ _ (Hstep _ (or_intror (or_intror (or_introl eq_refl))))).
    + apply (Hkeep _ _ (Hstep _ (or_introl eq_refl))).
Qed.

Lemma items_collection_paths_and_schema_witness :
  In "/collections/water_gauge/items/{featureId}"
     (dict_keys
        (oa_paths
           (openapi_document "water_gauge"
              [ {| name := "tide"; query_types := ["position"]; formats := [] |};
                {| name := "water_gauge"; query_types := ["items"];
                   formats := ["GeoJSON"] |} ] ["station_id"] true))).
Proof.
  pose proof (proj2 (items_collection_paths_and_schema
                       "water_gauge" "water_gauge" [] ["station_id"] true)
                [ {| name := "tide"; query_types := ["position"]; formats := [] |};
                  {| name := "water_gauge"; query_types := ["items"];
                     formats := ["GeoJSON"] |} ]
                {| name := "water_gauge"; query_types := ["items"];
                   formats := ["GeoJSON"] |}
                (or_intror (or_introl eq_refl)) eq_refl eq_refl) as H.
  cbv zeta in H. destruct H as (_ & _ & H & _). exact H.
Defined.

(** The claim as worded fails: the metadata path is a path item too, so
    the paths are three, not the two items paths alone. *)
Lemma items_collection_has_three_paths :
  let spec :=
    openapi_document "water_gauge"
      [ {| name := "water_gauge"; query_types := ["items"];
           formats := ["GeoJSON"] |} ] [] false in
  dict_keys (oa_paths spec) <> spec_items_paths "water_gauge"
  /\ List.length (oa_paths spec) = 3
  /\ dict_mem "/collections/water_gauge" (oa_paths spec) = true.
Proof.
  vm_compute. repeat split. intros H. discriminate H.
Qed.

(** ** Anchors *)

Lemma prefix_nil (s : string) : prefix "" s = true.
Proof. destruct s; reflexivity. Qed.

(** Replacing a one-character string is a character substitution. *)
Lemma replace_char (a b : ascii) (s : string) :
  PyStr.replace (String a "") (String b "") s = subst_char a b s.
Proof.
  unfold PyStr.replace.
  induction s as [|c s IH]; cbn [PyStr.replace_aux subst_char].
  - reflexivity.
  - unfold PyStr.startswith. cbn [prefix String.length Nat.sub].
    destruct (ascii_dec a c) as [<- | Hne].
    + rewrite prefix_nil, Ascii.eqb_refl. cbn [append]. now rewrite IH.
    + destruct (Ascii.eqb_spec c a) as [-> | _]; [contradiction|].
      now rewrite IH.
Qed.

Lemma replace_aux_absent (old new s : string) :
  PyStr.contains old s = false -> PyStr.replace_aux old new 0 s = s.
Proof.
  induction s as [|c s IH]; cbn [PyStr.contains PyStr.replace_aux]; intros H.
  - reflexivity.
  - apply Bool.orb_false_iff in H. destruct H as [-> H].
    now rewrite (IH H).
Qed.

Lemma replace_aux_miss (old new : string) (c : ascii) (s : string) :
  PyStr.startswith old (String c s) = false ->
  PyStr.replace_aux old new 0 (String c s)
  = String c (PyStr.replace_aux old new 0 s).
Proof.
  intros H. cbn [PyStr.replace_aux]. now rewrite H.
Qed.

Lemma prefix_append (p s : string) : prefix p (p ++ s) = true.
Proof.
  induction p as [|c p IH]; cbn [append prefix].
  - apply prefix_nil.
  - destruct (ascii_dec c c) as [_ | Hne]; [exact IH | now elim Hne].
Qed.

Lemma replace_aux_skip (old new p s : string) :
  PyStr.replace_aux old new (String.length p) (p ++ s)
  = PyStr.replace_aux old new 0 s.
Proof.
  induction p as [|c p IH]; cbn [append String.length PyStr.replace_aux].
  - reflexivity.
  - exact IH.
Qed.

(** An occurrence at the head of the string is replaced, and the scan
    goes on behind it. *)
Lemma replace_aux_hit (old new s : string) :
  old <> "" ->
  PyStr.replace_aux old new 0 (old ++ s)
  = new ++ PyStr.replace_aux old new 0 s.
Proof.
  destruct old as [|a old]; [intros H; now elim H | intros _].
  pose proof (prefix_append (String a old) s) as Hp. cbn [append] in Hp.
  cbn [append PyStr.replace_aux]. unfold PyStr.startswith. rewrite Hp.
  cbn [String.length]. rewrite Nat.sub_1_r. cbn [Nat.pred].
  now rewrite replace_aux_skip.
Qed.

(** C8 (as the code has it). The requirement anchor and the test anchor
    are [req_] and [ats_] followed by profile name, underscore and local
    id, in which every path separator is an underscore and every dash is
    kept.  The requirements-class anchor is [req_class_] followed by
    profile name, underscore and class name, in which every dash is an
    underscore.  The conformance-class anchor is [ats_class-] followed by
    the same underscored text, in which every [_class_] is then turned
    into [_class-]: when that text has no [_class_], the anchor has one
    dash, between the [class] token and the profile name. *)
Theorem anchor_rules :
  forall base_name local_id : string,
    requirement_anchor base_name local_id
    = "req_" ++ subst_char "/" "_" (base_name ++ "_" ++ local_id)
    /\ abstract_test_anchor base_name local_id
       = "ats_" ++ subst_char "/" "_" (base_name ++ "_" ++ local_id)
    /\ requirements_class_anchor base_name local_id
       = "req_class_" ++ subst_char "-" "_" (base_name ++ "_" ++ local_id)
    /\ conformance_class_anchor base_name local_id
       = "ats_class-"
         ++ PyStr.replace "_class_" "_class-"
              (subst_char "-" "_" (base_name ++ "_" ++ local_id))
    /\ (PyStr.contains "_class_"
          (subst_char "-" "_" (base_name ++ "_" ++ local_id)) = false ->
        conformance_class_anchor base_name local_id
        = "ats_class-" ++ subst_char "-" "_" (base_name ++ "_" ++ local_id)).
Proof.
  intros base_name local_id.
  assert (Hconf :
            conformance_class_anchor base_name local_id
            = "ats_class-"
              ++ PyStr.replace "_class_" "_class-"
                   (subst_char "-" "_" (base_name ++ "_" ++ local_id))).
  { unfold conformance_class_anchor. rewrite replace_char.
    generalize (base_name ++ "_" ++ local_id). intros rest.
    cbn [append subst_char Ascii.eqb Bool.eqb].
    unfold PyStr.replace.
    rewrite 3 replace_aux_miss by reflexivity.
    do 3 f_equal.
    refine (replace_aux_hit "_class_" "_class-" (subst_char "-" "_" rest) _).
    discriminate. }
  unfold requirement_anchor, abstract_test_anchor, requirements_class_anchor.
  rewrite !replace_char.
  repeat split; try reflexivity.
  - exact Hconf.
  - intros H. rewrite Hconf. unfold PyStr.replace.
    now rewrite (replace_aux_absent _ _ _ H).
Qed.

Lemma anchor_rules_witness :
  conformance_class_anchor "water_gauge" "core" = "ats_class-water_gauge_core".
Proof.
  destruct (anchor_rules "water_gauge" "core") as (_ & _ & _ & _ & H).
  apply H. reflexivity.
Defined.

(** The claim as worded fails: the dashes of a requirement id stay in the
    requirement anchor and in the test anchor, and a profile name with
    [_class_] inside gives a conformance-class anchor with two dashes. *)
Lemma requirement_anchor_keeps_dashes :
  requirement_anchor "water_gauge" "collection-water-gauge"
  <> spec_anchor "req" "water_gauge" "collection-water-gauge"
  /\ requirement_anchor "water_gauge" "collection-water-gauge"
     = "req_water_gauge_collection-water-gauge"
  /\ abstract_test_anchor "water_gauge" "collection-water-gauge"
     = "ats_water_gauge_collection-water-gauge"
  /\ count_char "-" (conformance_class_anchor "first_class_mail" "core") = 2.
Proof.
  repeat split. vm_compute. intros H. discriminate H.
Qed.

(** ** Incomplete configurations *)

Lemma io_iter_write (A : Type) (f : A -> file) (l : list A) :
  io_iter (fun x => write_file (f x)) l
  = (map (fun x => FileWritten (f x)) l, Ok tt).
Proof.
  induction l as [|a l IH]; cbn [io_iter map].
  - reflexivity.
  - unfold write_file at 1, emit_event. cbn [io_bind]. now rewrite IH.
Qed.

Lemma main_generate_missing_top_level (cfg : config) :
  top_level_complete cfg = false ->
  exists key, main_generate cfg = ([], Raise (KeyError key)).
Proof.
  destruct cfg as [pn pt colls props fs inc reqs ts].
  unfold top_level_complete, main_generate.
  cbn [cfg_profile_name cfg_profile_title cfg_collections cfg_properties
       cfg_filters cfg_include_asyncapi cfg_requirements cfg_tests].
  intros H.
  destruct pt; [|eexists; reflexivity].
  destruct pn; [|eexists; reflexivity].
  destruct colls; [|eexists; reflexivity].
  destruct props; [|eexists; reflexivity].
  destruct fs; [|eexists; reflexivity].
  destruct inc; [|eexists; reflexivity].
  destruct reqs; [|eexists; reflexivity].
  destruct ts; [|eexists; reflexivity].
  discriminate H.
Qed.

Lemma io_bind_ret_l (A B : Type) (a : A) (k : A -> io B) :
  io_bind ([], Ok a) k = k a.
Proof.
  unfold io_bind. destruct (k a) as [log r]. reflexivity.
Qed.

Lemma io_bind_step (A B : Type) (m : io A) (k : A -> io B)
  (log log' : list event) (a : A) (r : result B) :
  m = (log, Ok a) -> k a = (log', r) -> io_bind m k = ((log ++ log')%list, r).
Proof.
  intros -> Hk. unfold io_bind. now rewrite Hk.
Qed.

Lemma main_generate_unreadable_collection
  (pn pt : string) (colls : list raw_collection) (props : list string)
  (fs : list filter) (inc : bool) (reqs : list requirement) (ts : list test)
  (e : exn) :
  mapM openapi_view colls = Raise e ->
  main_generate
    {| cfg_profile_name := Some pn; cfg_profile_title := Some pt;
       cfg_collections := Some colls; cfg_properties := Some props;
       cfg_filters := Some fs; cfg_include_asyncapi := Some inc;
       cfg_requirements := Some reqs; cfg_tests := Some ts |}
  = ((map Mkdir (profile_directories pn)
      ++ map FileWritten (requirement_and_test_files pn reqs ts))%list,
     Raise e).
Proof.
  intros Hview.
  unfold main_generate, requirement_and_test_files.
  cbn [cfg_profile_name cfg_profile_title cfg_collections cfg_properties
       cfg_filters cfg_include_asyncapi cfg_requirements cfg_tests getitem].
  unfold lift. rewrite !io_bind_ret_l.
  eapply io_bind_step; [reflexivity|].
  rewrite map_app, map_map.
  eapply io_bind_step;
    [apply (io_iter_write _ (fun req => create_requirement pn (r_id req)
                                          (r_statement req) (r_parts req)))|].
  rewrite map_app.
  eapply io_bind_step; [reflexivity|].
  rewrite map_app, map_map.
  eapply io_bind_step;
    [apply (io_iter_write _ (fun t => create_abstract_test pn (t_id t)
                                        (t_req_id t) (t_steps t)))|].
  rewrite <- (app_nil_r (map FileWritten [create_conformance_class pn "core" ts])).
  eapply io_bind_step; [reflexivity|].
  unfold create_openapi, lift. rewrite Hview. reflexivity.
Qed.

Lemma openapi_view_names (colls : list raw_collection) (cs : list collection) :
  mapM openapi_view colls = Ok cs ->
  mapM (fun rc => getitem "name" (rc_name rc)) colls = Ok (map name cs).
Proof.
  revert cs. induction colls as [|rc colls IH]; cbn [mapM]; intros cs H.
  - injection H as <-. reflexivity.
  - unfold openapi_view at 1 in H.
    destruct (rc_name rc) as [n|]; cbn [getitem bind] in *; [|discriminate H].
    destruct (rc_query_types rc) as [qts|]; cbn [getitem bind] in H;
      [|discriminate H].
    destruct (mapM openapi_view colls) as [cs'|e]; cbn [bind] in H;
      [|discriminate H].
    injection H as <-. rewrite (IH cs' eq_refl). reflexivity.
Qed.

Lemma main_generate_missing_formats
  (pn pt : string) (colls : list raw_collection) (props : list string)
  (fs : list filter) (inc : bool) (reqs : list requirement) (ts : list test)
  (cs : list collection) (e : exn) :
  mapM openapi_view colls = Ok cs ->
  mapM text_view colls = Raise e ->
  main_generate
    {| cfg_profile_name := Some pn; cfg_profile_title := Some pt;
       cfg_collections := Some colls; cfg_properties := Some props;
       cfg_filters := Some fs; cfg_include_asyncapi := Some inc;
       cfg_requirements := Some reqs; cfg_tests := Some ts |}
  = ((map Mkdir (profile_directories pn)
      ++ map FileWritten (requirement_and_test_files pn reqs ts
                          ++ api_and_main_files pn inc))%list,
     Raise e).
Proof.
  intros Hview Htext.
  unfold main_generate, requirement_and_test_files, api_and_main_files.
  cbn [cfg_profile_name cfg_profile_title cfg_collections cfg_properties
       cfg_filters cfg_include_asyncapi cfg_requirements cfg_tests getitem].
  unfold lift. rewrite !io_bind_ret_l.
  rewrite <- !app_assoc.
  eapply io_bind_step; [reflexivity|].
  rewrite map_app, map_map.
  eapply io_bind_step;
    [apply (io_iter_write _ (fun req => create_requirement pn (r_id req)
                                          (r_statement req) (r_parts req)))|].
  rewrite map_app.
  eapply io_bind_step; [reflexivity|].
  rewrite map_app, map_map.
  eapply io_bind_step;
    [apply (io_iter_write _ (fun t => create_abstract_test pn (t_id t)
                                        (t_req_id t) (t_steps t)))|].
  rewrite map_app.
  eapply io_bind_step; [reflexivity|].
  rewrite map_app.
  eapply io_bind_step;
    [unfold create_openapi, lift; rewrite Hview; reflexivity|].
  rewrite map_app.
  eapply io_bind_step.
  { destruct inc; [|reflexivity].
    unfold create_asyncapi, lift.
    rewrite (openapi_view_names _ _ Hview). reflexivity. }
  rewrite <- (app_nil_r (map FileWritten _)).
  eapply io_bind_step; [reflexivity|].
  unfold create_sections, lift. rewrite Htext. reflexivity.
Qed.




(** ** Which steps a test gets *)

Lemma append_nil_r (s : string) : s ++ "" = s.
Proof.
  induction s as [|c s IH]; cbn [append]; [reflexivity | now rewrite IH].
Qed.

Lemma append_assoc (a b c : string) : (a ++ b) ++ c = a ++ b ++ c.
Proof.
  induction a as [|x a IH]; cbn [append]; [reflexivity | now rewrite IH].
Qed.

Lemma prefix_app_l (p q : string) :
  forall s, prefix (p ++ q) s = true -> prefix p s = true.
Proof.
  induction p as [|a p IH]; intros s H.
  - apply prefix_nil.
  - cbn [append] in H. destruct s as [|b s]; cbn [prefix] in *.
    + discriminate H.
    + destruct (ascii_dec a b); [exact (IH s H) | discriminate H].
Qed.

Lemma contains_app_l (p q s : string) :
  PyStr.contains p s = false -> PyStr.contains (p ++ q) s = false.
Proof.
  induction s as [|c s IH]; cbn [PyStr.contains]; unfold PyStr.startswith;
    intros H.
  - destruct (prefix (p ++ q) "") eqn:E; [|reflexivity].
    now rewrite (prefix_app_l p q _ E) in H.
  - apply Bool.orb_false_iff in H. destruct H as [Hp Hc].
    rewrite (IH Hc), Bool.orb_false_r.
    destruct (prefix (p ++ q) (String c s)) eqn:E; [|reflexivity].
    now rewrite (prefix_app_l p q _ E) in Hp.
Qed.

Lemma contains_miss (sub : string) (c : ascii) (s : string) :
  PyStr.startswith sub (String c s) = false ->
  PyStr.contains sub (String c s) = PyStr.contains sub s.
Proof.
  intros H. cbn [PyStr.contains]. now rewrite H.
Qed.

Lemma contains_hit (a : ascii) (sub s : string) :
  PyStr.contains (String a sub) (String a sub ++ s) = true.
Proof.
  pose proof (prefix_append (String a sub) s) as H. cbn [append] in *.
  cbn [PyStr.contains]. unfold PyStr.startswith. now rewrite H.
Qed.

Lemma split_aux_absent (sep s : string) :
  forall cur,
    PyStr.contains sep s = false -> PyStr.split_aux sep 0 cur s = [cur ++ s].
Proof.
  induction s as [|c s IH]; intros cur H;
    cbn [PyStr.contains PyStr.split_aux] in *.
  - now rewrite append_nil_r.
  - apply Bool.orb_false_iff in H. destruct H as [-> H].
    rewrite (IH _ H), append_assoc. reflexivity.
Qed.

Lemma split_aux_skip (sep p s cur : string) :
  PyStr.split_aux sep (String.length p) cur (p ++ s)
  = PyStr.split_aux sep 0 cur s.
Proof.
  induction p as [|c p IH]; cbn [append String.length PyStr.split_aux].
  - reflexivity.
  - exact IH.
Qed.

Lemma split_aux_hit (a : ascii) (sep s cur : string) :
  PyStr.split_aux (String a sep) 0 cur (String a sep ++ s)
  = cur :: PyStr.split_aux (String a sep) 0 "" s.
Proof.
  pose proof (prefix_append (String a sep) s) as Hp. cbn [append] in Hp.
  cbn [append PyStr.split_aux]. unfold PyStr.startswith. rewrite Hp.
  cbn [String.length]. rewrite Nat.sub_1_r. cbn [Nat.pred].
  now rewrite split_aux_skip.
Qed.

Lemma find_ext_in (A : Type) (f g : A -> bool) (l : list A) :
  (forall a, In a l -> f a = g a) -> find f l = find g l.
Proof.
  induction l as [|a l IH]; cbn [find]; intros H.
  - reflexivity.
  - rewrite (H a (or_introl eq_refl)), IH; [reflexivity|].
    intros b Hb. apply H. now right.
Qed.

(** In the id of a query-type requirement whose collection part is free of
    [data-query-], the one marker that occurs is the marker of its own
    query type. *)
Lemma contains_marker_query_id (qt qt' x : string) :
  In qt (dict_keys QUERY_TYPE_TEST_STEPS) ->
  In qt' (dict_keys QUERY_TYPE_TEST_STEPS) ->
  PyStr.contains "data-query-" x = false ->
  PyStr.contains (marker qt') (marker qt ++ x) = String.eqb qt' qt.
Proof.
  intros Hqt Hqt' Hx.
  assert (Hfree : PyStr.contains (marker qt') x = false).
  { unfold marker. now apply contains_app_l. }
  cbn in Hqt, Hqt'.
  repeat (destruct Hqt as [<- | Hqt]; [|]); try contradiction;
    repeat (destruct Hqt' as [<- | Hqt']; [|]); try contradiction;
    try exact (contains_hit "d" _ x);
    (transitivity false; [|reflexivity]);
    unfold marker; cbn [append];
    repeat (rewrite contains_miss by reflexivity);
    exact Hfree.
Qed.

(** Where the code and the specification agree: the id of a query-type
    requirement whose collection part is free of [data-query-] gets the
    steps of its query type, for the collection part with dashes turned
    into underscores. *)
Lemma suggested_test_of_query_id (qt x : string) (req : requirement) :
  In qt (dict_keys QUERY_TYPE_TEST_STEPS) ->
  PyStr.contains "data-query-" x = false ->
  r_id req = marker qt ++ x ->
  suggested_test req
  = generate_query_type_test (PyStr.replace "-" "_" x) qt (r_id req).
Proof.
  intros Hqt Hx Hid. unfold suggested_test. rewrite Hid.
  rewrite (find_ext_in _ _ (fun qt' => String.eqb qt' qt));
    [|intros qt' Hqt'; now apply contains_marker_query_id].
  assert (Hfind : find (fun qt' => String.eqb qt' qt)
                       (dict_keys QUERY_TYPE_TEST_STEPS) = Some qt).
  { cbn in Hqt.
    repeat (destruct Hqt as [<- | Hqt]; [reflexivity|]). contradiction. }
  rewrite Hfind.
  assert (Hfree : PyStr.contains (marker qt) x = false).
  { unfold marker. now apply contains_app_l. }
  change (marker qt) with (String "d" ("ata-query-" ++ qt ++ "-")) in *.
  cbn [PyStr.split bind].
  rewrite split_aux_hit, (split_aux_absent _ _ _ Hfree).
  reflexivity.
Qed.

(** An id with no marker inside takes the template branch. *)
Lemma suggested_test_without_marker (req : requirement) :
  (forall qt, In qt (dict_keys QUERY_TYPE_TEST_STEPS) ->
              PyStr.contains (marker qt) (r_id req) = false) ->
  suggested_test req = template_test req.
Proof.
  intros H. unfold suggested_test.
  rewrite (find_ext_in _ _ (fun _ => false) _ H). reflexivity.
Qed.

(** C4, at the input where the code leaves the specification.  The
    collection [obs_data_query_items_v2] with the query type items gets
    the requirement [data-query-items-obs-data-query-items-v2].  The
    specification has the test of this requirement name the collection
    [obs_data_query_items_v2]; the code looks for the marker anywhere in
    the id and keeps the text between its first two occurrences, so the
    steps name [obs_].  The collection-metadata requirement of the same
    collection, which has no [data-query-] prefix, gets the five items
    steps for a collection [v2] where the specification has three generic
    steps. *)
Theorem nested_marker_misreads_collection :
  exists requirements tests,
    generate_suggested_requirements [nested_marker_collection] false []
    = Ok requirements
    /\ generate_suggested_tests requirements = Ok tests
    /\ option_map t_steps
         (find (fun t => String.eqb (t_id t)
                           "data-query-items-obs-data-query-items-v2") tests)
       = Some [ "Send GET request to /collections/obs_/items";
                "Verify response is valid GeoJSON FeatureCollection";
                "Verify response contains required properties";
                "Send GET request to /collections/obs_/items/{featureId}";
                "Verify response is valid GeoJSON Feature" ]
    /\ option_map spec_suggested_steps
         (find (fun r => String.eqb (r_id r)
                           "data-query-items-obs-data-query-items-v2")
               requirements)
       = Some (Ok [ "Send GET request to /collections/obs_data_query_items_v2/items";
                    "Verify response is valid GeoJSON FeatureCollection";
                    "Verify response contains required properties";
                    "Send GET request to /collections/obs_data_query_items_v2/items/{featureId}";
                    "Verify response is valid GeoJSON Feature" ])
    /\ option_map t_steps
         (find (fun t => String.eqb (t_id t)
                           "collection-obs-data-query-items-v2") tests)
       = Some [ "Send GET request to /collections/v2/items";
                "Verify response is valid GeoJSON FeatureCollection";
                "Verify response contains required properties";
                "Send GET request to /collections/v2/items/{featureId}";
                "Verify response is valid GeoJSON Feature" ]
    /\ option_map spec_suggested_steps
         (find (fun r => String.eqb (r_id r)
                           "collection-obs-data-query-items-v2") requirements)
       = Some (Ok [ "Verify requirement collection-obs-data-query-items-v2 is implemented";
                    "Test basic functionality";
                    "Verify conformance" ]).
Proof.
  eexists. eexists.
  split; [vm_compute; reflexivity|].
  split; [vm_compute; reflexivity|].
  repeat split; vm_compute; reflexivity.
Qed.

(** ** Test synthesis over synthesized requirements *)

Lemma subst_char_back (s : string) :
  subst_char "-" "_" (subst_char "_" "-" s) = subst_char "-" "_" s.
Proof.
  induction s as [|c s IH]; cbn [subst_char]; [reflexivity|].
  rewrite IH. f_equal.
  destruct (Ascii.eqb_spec c "_") as [-> | Hu]; [reflexivity|].
  reflexivity.
Qed.

Lemma subst_char_absent (a b : ascii) (s : string) :
  count_char a s = 0 -> subst_char a b s = s.
Proof.
  induction s as [|c s IH]; cbn [subst_char count_char]; intros H;
    [reflexivity|].
  destruct (Ascii.eqb c a); [discriminate H|].
  now rewrite (IH H).
Qed.

(** The collection name a test recovers from the id of a query-type
    requirement. *)
Lemma recovered_collection_name (collection_name : string) :
  PyStr.replace "-" "_" (dash_case collection_name)
  = subst_char "-" "_" collection_name.
Proof.
  unfold dash_case. rewrite !replace_char. apply subst_char_back.
Qed.

Lemma query_requirement_id_marker (collection_name qt : string) :
  query_requirement_id collection_name qt
  = marker qt ++ dash_case collection_name.
Proof.
  unfold query_requirement_id, marker. cbn [append].
  now rewrite !append_assoc.
Qed.

(** X1. The test of the query-type requirement of a collection whose
    dash-cased name is free of [data-query-] has the steps of that query
    type for the collection name with its dashes turned into underscores:
    for a name without dashes, the steps name the collection itself, as
    the parts of the requirement do. *)
Theorem query_test_names_collection :
  forall (collection_name qt : string) (req : requirement),
    In qt (dict_keys QUERY_TYPE_TEST_STEPS) ->
    PyStr.contains "data-query-" (dash_case collection_name) = false ->
    r_id req = query_requirement_id collection_name qt ->
    suggested_test req
    = generate_query_type_test (subst_char "-" "_" collection_name) qt (r_id req)
    /\ (count_char "-" collection_name = 0 ->
        suggested_test req
        = generate_query_type_test collection_name qt (r_id req)).
Proof.
  intros collection_name qt req Hqt Hfree Hid.
  rewrite query_requirement_id_marker in Hid.
  pose proof (suggested_test_of_query_id qt _ req Hqt Hfree Hid) as H.
  rewrite recovered_collection_name in H.
  split; [exact H|].
  intros Hdash. now rewrite (subst_char_absent _ _ _ Hdash) in H.
Qed.

Lemma query_test_names_collection_witness :
  suggested_test
    {| r_id := "data-query-position-water-gauge"; r_statement := "";
       r_parts := [] |}
  = generate_query_type_test "water_gauge" "position"
      "data-query-position-water-gauge".
Proof.
  apply (proj2 (query_test_names_collection "water_gauge" "position"
                  {| r_id := "data-query-position-water-gauge";
                     r_statement := ""; r_parts := [] |}
                  (or_intror (or_introl eq_refl)) eq_refl eq_refl)).
  reflexivity.
Defined.

Lemma contains_false_startswith (sub s : string) :
  PyStr.contains sub s = false -> PyStr.startswith sub s = false.
Proof.
  destruct s as [|c s]; cbn [PyStr.contains]; intros H; [exact H|].
  now apply Bool.orb_false_iff in H.
Qed.

Lemma skip_chars_app (p x : string) :
  skip_chars (String.length p) (p ++ x) = x.
Proof.
  induction p as [|c p IH]; cbn [String.length append skip_chars].
  - now destruct x.
  - exact IH.
Qed.

(** The two rule tables have the same query types, in the same order. *)
Lemma rule_tables_same_keys :
  dict_keys QUERY_TYPE_TEST_STEPS = dict_keys QUERY_TYPE_REQUIREMENTS.
Proof. reflexivity. Qed.

Lemma startswith_marker_query_id (qt qt' x : string) :
  In qt (dict_keys QUERY_TYPE_TEST_STEPS) ->
  In qt' (dict_keys QUERY_TYPE_TEST_STEPS) ->
  PyStr.startswith (marker qt') (marker qt ++ x) = String.eqb qt' qt.
Proof.
  intros Hqt Hqt'. unfold PyStr.startswith. cbn in Hqt, Hqt'.
  repeat (destruct Hqt as [<- | Hqt]; [|]); try contradiction;
    repeat (destruct Hqt' as [<- | Hqt']; [|]); try contradiction;
    try exact (prefix_append _ x); reflexivity.
Qed.

(** On an id with no marker inside, the code and the specification take
    the same template branch. *)
Lemma agree_without_marker (req : requirement) :
  (forall qt, In qt (dict_keys QUERY_TYPE_TEST_STEPS) ->
              PyStr.contains (marker qt) (r_id req) = false) ->
  exists steps,
    spec_suggested_steps req = Ok steps
    /\ suggested_test req
       = Ok {| t_id := r_id req; t_req_id := r_id req; t_steps := steps |}.
Proof.
  intros H. rewrite (suggested_test_without_marker req H).
  unfold spec_suggested_steps.
  rewrite (find_ext_in _ _ (fun _ => false));
    [|intros qt Hqt; apply contains_false_startswith, H, Hqt].
  destruct (template_test_total req) as (steps & ->).
  exists steps. split; reflexivity.
Qed.

(** On the id of a query-type requirement whose collection part is free of
    [data-query-], they agree too. *)
Lemma agree_on_query_id (qt x : string) (req : requirement) :
  In qt (dict_keys QUERY_TYPE_TEST_STEPS) ->
  PyStr.contains "data-query-" x = false ->
  r_id req = marker qt ++ x ->
  exists steps,
    spec_suggested_steps req = Ok steps
    /\ suggested_test req
       = Ok {| t_id := r_id req; t_req_id := r_id req; t_steps := steps |}.
Proof.
  intros Hqt Hx Hid.
  rewrite (suggested_test_of_query_id qt x req Hqt Hx Hid).
  unfold spec_suggested_steps. rewrite Hid.
  rewrite (find_ext_in _ _ (fun qt' => String.eqb qt' qt));
    [|intros qt' Hqt'; now apply startswith_marker_query_id].
  assert (Hfind : find (fun qt' => String.eqb qt' qt)
                       (dict_keys QUERY_TYPE_TEST_STEPS) = Some qt).
  { cbn in Hqt.
    repeat (destruct Hqt as [<- | Hqt]; [reflexivity|]). contradiction. }
  rewrite Hfind, skip_chars_app.
  generalize (PyStr.replace "-" "_" x). intros collection_name.
  unfold generate_query_type_test.
  cbn in Hqt.
  repeat (destruct Hqt as [<- | Hqt]; [eexists; split; reflexivity|]).
  contradiction.
Qed.

Lemma prefixed_id_has_no_marker (p x qt : string) :
  In p ["collection-"; "output-format-"; "asyncapi-"] ->
  In qt (dict_keys QUERY_TYPE_TEST_STEPS) ->
  PyStr.contains "data-query-" x = false ->
  PyStr.contains (marker qt) (p ++ x) = false.
Proof.
  intros Hp Hqt Hx.
  assert (Hfree : PyStr.contains (marker qt) x = false).
  { unfold marker. now apply contains_app_l. }
  cbn in Hp, Hqt.
  repeat (destruct Hp as [<- | Hp]; [|]); try contradiction;
    repeat (destruct Hqt as [<- | Hqt]; [|]); try contradiction;
    unfold marker; cbn [append];
    repeat (rewrite contains_miss by reflexivity);
    exact Hfree.
Qed.

Lemma in_collection_ids (prefix : string) (collections : list collection)
  (id : string) :
  In id (collection_ids prefix collections) ->
  exists coll, In coll collections /\ id = prefix ++ dash_case (name coll).
Proof.
  unfold collection_ids. intros H. apply in_map_iff in H.
  destruct H as (coll & <- & Hin). now exists coll.
Qed.

Lemma in_query_ids (collections : list collection) (id : string) :
  In id (query_ids collections) ->
  exists coll qt,
    In coll collections /\ In qt (query_types coll)
    /\ known_query_type qt = true
    /\ id = query_requirement_id (name coll) qt.
Proof.
  unfold query_ids. intros H. apply in_flat_map in H.
  destruct H as (coll & Hc & H). apply in_map_iff in H.
  destruct H as (qt & <- & Hq). apply filter_In in Hq.
  exists coll, qt. repeat split; tauto.
Qed.



(** ** Which requirements a configuration gets *)

Lemma startswith_asyncapi_tag (s : string) :
  PyStr.startswith "asyncapi-" s = true -> id_tag s = "as".
Proof.
  unfold PyStr.startswith.
  destruct s as [|a [|b s]]; cbn [prefix]; try discriminate.
  - destruct (ascii_dec "a" a); discriminate.
  - destruct (ascii_dec "a" a) as [<- |]; [|discriminate].
    destruct (ascii_dec "s" b) as [<- |]; [|discriminate].
    reflexivity.
Qed.

Lemma suggested_ids_without_asyncapi (collections : list collection)
  (filters : list filter) (id : string) :
  In id (suggested_ids collections false filters) -> id_tag id <> "as".
Proof.
  unfold suggested_ids. cbn [app]. intros [<- | H]; [discriminate|].
  apply in_app_or in H. destruct H as [H | H].
  { pose proof (collection_ids_tag "collection-" collections _ _ _ eq_refl) as T.
    rewrite Forall_forall in T. rewrite (T _ H). discriminate. }
  apply in_app_or in H. destruct H as [H | H].
  { pose proof (query_ids_tag collections) as T.
    rewrite Forall_forall in T. rewrite (T _ H). discriminate. }
  apply in_app_or in H. destruct H as [H | H].
  { pose proof (collection_ids_tag "output-format-" collections _ _ _ eq_refl) as T.
    rewrite Forall_forall in T. rewrite (T _ H). discriminate. }
  destruct filters; [destruct H|].
  destruct H as [<- | []]. discriminate.
Qed.

(** X3. Without the event API no synthesized requirement has an id that
    starts with [asyncapi-]; with it, every collection has its
    [asyncapi-] requirement.  The [filters] requirement is there exactly
    when the filter list is not empty, whether or not the event API is
    included. *)
Theorem event_requirements_are_gated :
  forall (collections : list collection) (include_asyncapi : bool)
         (filters : list filter) (requirements : list requirement),
    generate_suggested_requirements collections include_asyncapi filters
    = Ok requirements ->
    (include_asyncapi = false ->
     forall req, In req requirements ->
                 PyStr.startswith "asyncapi-" (r_id req) = false)
    /\ (include_asyncapi = true ->
        forall coll, In coll collections ->
                     In ("asyncapi-" ++ dash_case (name coll))
                        (map r_id requirements))
    /\ (In "filters" (map r_id requirements) <-> filters <> []).
Proof.
  intros collections include_asyncapi filters requirements Hrun.
  rewrite (generate_suggested_requirements_ids _ _ _ _ Hrun).
  split; [|split].
  - intros -> req Hreq.
    pose proof (in_map r_id _ _ Hreq) as Hid.
    rewrite (generate_suggested_requirements_ids _ _ _ _ Hrun) in Hid.
    apply suggested_ids_without_asyncapi in Hid.
    destruct (PyStr.startswith "asyncapi-" (r_id req)) eqn:E; [|reflexivity].
    now apply startswith_asyncapi_tag in E.
  - intros -> coll Hc. unfold suggested_ids. cbn [app]. right.
    do 3 (apply in_or_app; right). apply in_or_app. left.
    exact (in_map (fun c => "asyncapi-" ++ dash_case (name c)) _ _ Hc).
  - split.
    + intros H ->. unfold suggested_ids in H. cbn [app] in H.
      destruct H as [H | H]; [discriminate H|].
      assert (Htag : forall prefix a b rest,
                 prefix = String a (String b rest) ->
                 String a (String b "") <> "fi" ->
                 ~ In "filters" (collection_ids prefix collections)).
      { intros prefix a b rest E Hne Hin.
        pose proof (collection_ids_tag prefix collections a b rest E) as T.
        rewrite Forall_forall in T. apply Hne. now rewrite <- (T _ Hin). }
      apply in_app_or in H. destruct H as [H | H].
      { now apply (Htag "collection-" _ _ _ eq_refl) in H. }
      apply in_app_or in H. destruct H as [H | H].
      { pose proof (query_ids_tag collections) as T.
        rewrite Forall_forall in T. now pose proof (T _ H). }
      apply in_app_or in H. destruct H as [H | H].
      { now apply (Htag "output-format-" _ _ _ eq_refl) in H. }
      rewrite app_nil_r in H.
      destruct include_asyncapi; [|destruct H].
      now apply (Htag "asyncapi-" _ _ _ eq_refl) in H.
    + intros Hne. unfold suggested_ids. cbn [app]. right.
      do 4 (apply in_or_app; right).
      destruct filters; [now elim Hne | now left].
Qed.

Lemma event_requirements_are_gated_witness :
  PyStr.startswith "asyncapi-" (r_id (collection_requirement water_gauge)) = false
  /\ In "asyncapi-water-gauge"
        (map r_id
           [ openapi_requirement; collection_requirement water_gauge;
             generate_format_requirement "water_gauge" [];
             asyncapi_requirement water_gauge ]).
Proof.
  split.
  - refine (proj1 (event_requirements_are_gated
                     [ {| name := "water_gauge"; query_types := [];
                          formats := [] |} ] false [] _ eq_refl)
              eq_refl (collection_requirement water_gauge) _).
    right. left. reflexivity.
  - refine (proj1 (proj2 (event_requirements_are_gated
                            [ {| name := "water_gauge"; query_types := [];
                                 formats := [] |} ] true [] _ eq_refl))
              eq_refl {| name := "water_gauge"; query_types := [];
                         formats := [] |} _).
    left. reflexivity.
Defined.

Lemma length_query_ids (collections : list collection) :
  List.length (query_ids collections)
  = list_sum (map (fun coll =>
                     List.length (List.filter known_query_type (query_types coll)))
                  collections).
Proof.
  unfold query_ids.
  induction collections as [|coll colls IH]; cbn [flat_map map list_sum].
  - reflexivity.
  - now rewrite length_app, length_map, IH.
Qed.

(** X4. The number of synthesized requirements: one for the OpenAPI
    document, two per collection (metadata and output formats), one per
    known query type a collection lists (repetitions counted), one more
    per collection with the event API, and one when there are filters. *)
Theorem number_of_suggested_requirements :
  forall (collections : list collection) (include_asyncapi : bool)
         (filters : list filter) (requirements : list requirement),
    generate_suggested_requirements collections include_asyncapi filters
    = Ok requirements ->
    List.length requirements
    = 1 + 2 * List.length collections
      + list_sum (map (fun coll =>
                         List.length (List.filter known_query_type
                                                  (query_types coll)))
                      collections)
      + (if include_asyncapi then List.length collections else 0)
      + (match filters with [] => 0 | _ :: _ => 1 end).
Proof.
  intros collections include_asyncapi filters requirements Hrun.
  rewrite <- (length_map r_id).
  rewrite (generate_suggested_requirements_ids _ _ _ _ Hrun).
  unfold suggested_ids, collection_ids.
  rewrite !length_app, !length_map, length_query_ids.
  cbn [List.length].
  destruct include_asyncapi, filters; rewrite ?length_map; cbn [List.length]; lia.
Qed.

Lemma number_of_suggested_requirements_witness :
  exists requirements,
    generate_suggested_requirements [water_gauge] true [] = Ok requirements
    /\ List.length requirements = 6.
Proof.
  eexists. split; [vm_compute; reflexivity|].
  exact (number_of_suggested_requirements [water_gauge] true [] _ eq_refl).
Defined.

(** ** Dictionaries *)

Lemma dict_get_set_same (V : Type) (k : string) (v : V) (d : dict V) :
  dict_get k (dict_set k v d) = Some v.
Proof.
  induction d as [|[k' v'] d IH]; cbn [dict_set dict_get].
  - now rewrite String.eqb_refl.
  - destruct (String.eqb k k') eqn:E; cbn [dict_get]; rewrite E;
      [reflexivity | exact IH].
Qed.

Lemma dict_get_set_other (V : Type) (k k0 : string) (v : V) (d : dict V) :
  k0 <> k -> dict_get k0 (dict_set k v d) = dict_get k0 d.
Proof.
  intros Hne.
  induction d as [|[k' v'] d IH]; cbn [dict_set dict_get].
  - destruct (String.eqb_spec k0 k); [contradiction | reflexivity].
  - destruct (String.eqb_spec k k') as [<- | Hk]; cbn [dict_get].
    + destruct (String.eqb_spec k0 k); [contradiction | reflexivity].
    + now rewrite IH.
Qed.

(** Storing the value a key already has changes nothing. *)
Lemma dict_set_absorb (V : Type) (k : string) (v : V) (d : dict V) :
  dict_get k d = Some v -> dict_set k v d = d.
Proof.
  induction d as [|[k' v'] d IH]; cbn [dict_set dict_get]; intros H.
  - discriminate H.
  - destruct (String.eqb k k'); [now injection H as -> | now rewrite (IH H)].
Qed.

Lemma dict_set_entries (V : Type) (k : string) (v : V) (d : dict V)
  (k0 : string) (v0 : V) :
  In (k0, v0) (dict_set k v d) -> (k0 = k /\ v0 = v) \/ In (k0, v0) d.
Proof.
  induction d as [|[k' v'] d IH]; cbn [dict_set]; intros H.
  - destruct H as [H | []]. injection H as <- <-. now left.
  - destruct (String.eqb_spec k k') as [-> | Hk]; destruct H as [H | H].
    + injection H as <- <-. now left.
    + right. now right.
    + right. now left.
    + destruct (IH H) as [? | ?]; [now left | right; now right].
Qed.

Lemma dict_set_keys (V : Type) (k : string) (v : V) (d : dict V) (k0 : string) :
  In k0 (dict_keys (dict_set k v d)) <-> k0 = k \/ In k0 (dict_keys d).
Proof.
  split.
  - intros H. apply in_map_iff in H. destruct H as ([k1 v1] & <- & H).
    apply dict_set_entries in H. destruct H as [[-> _] | H]; [now left|].
    right. exact (in_map fst _ _ H).
  - intros [-> | H]; [apply dict_set_mem | now apply dict_set_keep].
Qed.

Lemma dict_set_NoDup (V : Type) (k : string) (v : V) (d : dict V) :
  NoDup (dict_keys d) -> NoDup (dict_keys (dict_set k v d)).
Proof.
  induction d as [|[k' v'] d IH]; cbn [dict_set]; intros H.
  - repeat constructor. intros [].
  - destruct (String.eqb_spec k k') as [-> | Hk]; [exact H|].
    cbn [dict_keys map fst] in *. apply NoDup_cons_iff in H.
    destruct H as [Hfresh H]. constructor; [|exact (IH H)].
    intros Hin. apply (dict_set_keys V k v d k') in Hin.
    destruct Hin as [-> | Hin]; [now elim Hk | contradiction].
Qed.

(** ** The HTTP API description *)

(** X5. A query type other than [items] and [locations], known to the
    rule tables or not, gets one generic path
    [/collections/{name}/{query type}] with a required [coords] parameter
    and a [datetime] parameter; for a query type the rule tables do not
    know, requirement synthesis has no requirement beside that path. *)
Theorem other_query_types_get_generic_path :
  forall (base_name collection_name qt : string) (fmts properties : list string)
         (include_asyncapi : bool),
    qt <> "items" -> qt <> "locations" ->
    let spec :=
      openapi_document base_name
        [ {| name := collection_name; query_types := [qt]; formats := fmts |} ]
        properties include_asyncapi in
    dict_keys (oa_paths spec)
    = [ "/collections/" ++ collection_name;
        "/collections/" ++ collection_name ++ "/" ++ qt ]
    /\ dict_get ("/collections/" ++ collection_name ++ "/" ++ qt) (oa_paths spec)
       = Some {| op_summary := "Query " ++ collection_name ++ " by " ++ qt;
                 op_parameters := Some [
                   {| p_name := "coords"; p_in := "query"; p_required := true |};
                   {| p_name := "datetime"; p_in := "query"; p_required := false |} ];
                 op_response_200 := "Query results" |}
    /\ (known_query_type qt = false ->
        query_type_requirements collection_name [qt] = Ok []).
Proof.
  intros base_name collection_name qt fmts properties include_asyncapi Hi Hl.
  cbn -[PyStr.replace PyStr.title String.eqb append add_query_type_paths].
  unfold add_query_type_paths.
  destruct (String.eqb_spec qt "items") as [-> | _]; [now elim Hi|].
  destruct (String.eqb_spec qt "locations") as [-> | _]; [now elim Hl|].
  change ("/" ++ qt) with (String "/" qt).
  cbn [dict_set dict_get].
  rewrite !eqb_append_l, eqb_append_self.
  cbn [dict_keys map fst dict_get].
  rewrite !eqb_append_l, eqb_append_self, String.eqb_refl.
  repeat split.
  intros K. cbn [query_type_requirements].
  now rewrite (generate_query_type_requirement_unknown _ _ K).
Qed.

Lemma other_query_types_get_generic_path_witness :
  dict_keys
    (oa_paths
       (openapi_document "water_gauge"
          [ {| name := "water_gauge"; query_types := ["radius"];
               formats := [] |} ] [] false))
  = [ "/collections/water_gauge"; "/collections/water_gauge/radius" ]
  /\ query_type_requirements "water_gauge" ["radius"] = Ok [].
Proof.
  pose proof (other_query_types_get_generic_path
                "water_gauge" "water_gauge" "radius" [] [] false) as H.
  cbv zeta in H.
  destruct H as (Hk & _ & Hr); [discriminate | discriminate |].
  split; [exact Hk | apply Hr; reflexivity].
Defined.

Lemma add_query_type_paths_twice (collection_name qt : string)
  (paths : dict path_item) :
  add_query_type_paths collection_name qt
    (add_query_type_paths collection_name qt paths)
  = add_query_type_paths collection_name qt paths.
Proof.
  assert (Hne : forall a b : string,
             a <> b ->
             "/collections/" ++ collection_name ++ a
             <> "/collections/" ++ collection_name ++ b).
  { intros a b Hab E. apply append_inj_l, append_inj_l in E. contradiction. }
  unfold add_query_type_paths.
  destruct (String.eqb qt "items"); [|destruct (String.eqb qt "locations")].
  - rewrite (dict_set_absorb _ ("/collections/" ++ collection_name ++ "/items")).
    + apply dict_set_absorb, dict_get_set_same.
    + rewrite dict_get_set_other by (apply Hne; discriminate).
      apply dict_get_set_same.
  - rewrite (dict_set_absorb _ ("/collections/" ++ collection_name ++ "/locations")).
    + apply dict_set_absorb, dict_get_set_same.
    + rewrite dict_get_set_other by (apply Hne; discriminate).
      apply dict_get_set_same.
  - apply dict_set_absorb, dict_get_set_same.
Qed.

(** X6. A query type listed twice in a row changes nothing in the HTTP API
    description: the second pass stores the path items the first pass
    stored.  (Requirement synthesis, in contrast, emits the requirement
    twice.) *)
Theorem repeated_query_type_changes_no_path :
  forall (base_name collection_name qt : string) (rest fmts : list string)
         (before after : list collection) (properties : list string)
         (include_asyncapi : bool),
    openapi_document base_name
      (before
       ++ {| name := collection_name; query_types := qt :: qt :: rest;
             formats := fmts |} :: after)%list
      properties include_asyncapi
    = openapi_document base_name
        (before
         ++ {| name := collection_name; query_types := qt :: rest;
               formats := fmts |} :: after)%list
        properties include_asyncapi.
Proof.
  intros. unfold openapi_document. rewrite !fold_left_app. cbn [fold_left].
  destruct (fold_left _ before _) as [paths schemas].
  unfold add_collection at 2 4. cbn [name query_types fold_left].
  now rewrite add_query_type_paths_twice.
Qed.

Lemma fold_left_keep_in (A B : Type) (f : B -> A -> B) (P : B -> Prop)
  (l : list A) :
  (forall b a, In a l -> P b -> P (f b a)) ->
  forall b, P b -> P (fold_left f l b).
Proof.
  induction l as [|a l IH]; cbn [fold_left]; intros Hf b Hb.
  - exact Hb.
  - apply IH.
    + intros b' a' Ha'. apply Hf. now right.
    + apply Hf; [now left | exact Hb].
Qed.

Lemma property_dict_keys (properties : list string) :
  forall (d : dict unit) (p : string),
    In p (dict_keys (fold_left (fun d prop => dict_set prop tt d) properties d))
    <-> In p properties \/ In p (dict_keys d).
Proof.
  induction properties as [|q qs IH]; cbn [fold_left]; intros d p.
  - cbn [In]. tauto.
  - rewrite IH, dict_set_keys. cbn [In]. intuition congruence.
Qed.

Lemma add_query_type_paths_NoDup (collection_name qt : string)
  (paths : dict path_item) :
  NoDup (dict_keys paths) ->
  NoDup (dict_keys (add_query_type_paths collection_name qt paths)).
Proof.
  intros H. unfold add_query_type_paths.
  destruct (String.eqb qt "items"); [|destruct (String.eqb qt "locations")];
    repeat apply dict_set_NoDup; exact H.
Qed.

(** X7. In the HTTP API description, paths and schema names occur once
    each.  Every schema belongs to a collection of the configuration, is
    keyed by its title-cased name, lists each declared property exactly
    once (a property declared twice is one field), and carries the pub/sub
    extension, naming the notification channel of the collection, exactly
    when the event API is included.  Every collection has a schema under
    its key. *)
Theorem feature_schemas_describe_properties :
  forall (base_name : string) (collections : list collection)
         (properties : list string) (include_asyncapi : bool),
    let spec := openapi_document base_name collections properties include_asyncapi in
    NoDup (dict_keys (oa_paths spec))
    /\ NoDup (dict_keys (oa_schemas spec))
    /\ (forall coll, In coll collections ->
                     In (camel (name coll) ++ "Feature")
                        (dict_keys (oa_schemas spec)))
    /\ (forall key schema,
           In (key, schema) (oa_schemas spec) ->
           NoDup (dict_keys (fs_properties schema))
           /\ (forall p, In p (dict_keys (fs_properties schema))
                         <-> In p properties)
           /\ exists coll,
               In coll collections
               /\ key = camel (name coll) ++ "Feature"
               /\ fs_pubsub schema
                  = if include_asyncapi
                    then Some ("x-ogc-edr-" ++ base_name ++ "-pubsub",
                               name coll ++ "_notifications")
                    else None).
Proof.
  intros base_name collections properties include_asyncapi.
  unfold openapi_document.
  set (step := add_collection base_name properties include_asyncapi).
  set (good := fun (key : string) (schema : feature_schema) =>
         NoDup (dict_keys (fs_properties schema))
         /\ (forall p, In p (dict_keys (fs_properties schema))
                       <-> In p properties)
         /\ exists coll,
             In coll collections
             /\ key = camel (name coll) ++ "Feature"
             /\ fs_pubsub schema
                = if include_asyncapi
                  then Some ("x-ogc-edr-" ++ base_name ++ "-pubsub",
                             name coll ++ "_notifications")
                  else None).
  assert (Hinv :
    let acc := fold_left step collections ([], []) in
    NoDup (dict_keys (fst acc)) /\ NoDup (dict_keys (snd acc))
    /\ (forall key schema, In (key, schema) (snd acc) -> good key schema)).
  { apply (fold_left_keep_in _ _ step
             (fun acc => NoDup (dict_keys (fst acc))
                         /\ NoDup (dict_keys (snd acc))
                         /\ (forall key schema, In (key, schema) (snd acc) ->
                                                good key schema))).
    - intros [paths schemas] coll Hc (Hp & Hs & Hg).
      unfold step, add_collection. cbn [fst snd] in *.
      split; [|split].
      + apply (fold_left_keep _ _
                 (fun ps qt => add_query_type_paths (name coll) qt ps)
                 (fun ps => NoDup (dict_keys ps))).
        * intros ps qt. apply add_query_type_paths_NoDup.
        * now apply dict_set_NoDup.
      + now apply dict_set_NoDup.
      + intros key schema Hin. apply dict_set_entries in Hin.
        destruct Hin as [[-> ->] | Hin]; [|now apply Hg].
        unfold good. cbn [fs_properties fs_pubsub]. split; [|split].
        * apply (fold_left_keep _ _ (fun d prop => dict_set prop tt d)
                   (fun d => NoDup (dict_keys d))).
          -- intros d prop. apply dict_set_NoDup.
          -- constructor.
        * intros p. rewrite property_dict_keys. cbn [dict_keys map In]. tauto.
        * exists coll. repeat split. exact Hc.
    - cbn [fst snd]. split; [constructor|]. split; [constructor|].
      intros key schema []. }
  assert (Hall : forall coll,
             In coll collections ->
             In (camel (name coll) ++ "Feature")
                (dict_keys (snd (fold_left step collections ([], []))))).
  { intros coll Hc. apply in_split in Hc. destruct Hc as (before & after & ->).
    rewrite fold_left_app. cbn [fold_left].
    apply (fold_left_keep _ _ step
             (fun acc => In (camel (name coll) ++ "Feature")
                            (dict_keys (snd acc)))).
    - intros [paths schemas] c H. unfold step, add_collection. cbn [snd] in *.
      now apply dict_set_keep.
    - destruct (fold_left step before ([], [])) as [paths schemas].
      unfold step at 1, add_collection. cbn [snd]. apply dict_set_mem. }
  cbv zeta in Hinv.
  destruct (fold_left step collections ([], [])) as [paths schemas].
  cbn [fst snd oa_paths oa_schemas] in *.
  destruct Hinv as (Hp & Hs & Hg).
  split; [exact Hp|]. split; [exact Hs|]. split; [exact Hall|].
  intros key schema Hin. exact (Hg key schema Hin).
Qed.

Lemma feature_schemas_describe_properties_witness :
  In "WaterGaugeFeature"
     (dict_keys
        (oa_schemas
           (openapi_document "water_gauge" [water_gauge]
              ["station_id"; "value"; "station_id"] true))).
Proof.
  pose proof (feature_schemas_describe_properties "water_gauge" [water_gauge]
                ["station_id"; "value"; "station_id"] true) as H.
  cbv zeta in H. destruct H as (_ & _ & H & _).
  apply (H water_gauge). left. reflexivity.
Defined.

(** ** The event API description *)

Lemma string_length_append (a b : string) :
  String.length (a ++ b) = String.length a + String.length b.
Proof.
  induction a as [|c a IH]; cbn [append String.length]; [reflexivity|].
  now rewrite IH.
Qed.

Lemma append_inj_r (s : string) :
  forall a b : string, a ++ s = b ++ s -> a = b.
Proof.
  induction a as [|c a IH]; intros [|d b] H; cbn [append] in H.
  - reflexivity.
  - apply (f_equal String.length) in H.
    cbn [String.length] in H. rewrite string_length_append in H. lia.
  - apply (f_equal String.length) in H.
    cbn [String.length] in H. rewrite string_length_append in H. lia.
  - injection H as -> H. now rewrite (IH b H).
Qed.

Lemma filters_copied (filters : list filter) :
  map (fun f => {| f_name := f_name f; f_description := f_description f;
                   f_type := f_type f |}) filters
  = filters.
Proof.
  induction filters as [|[n d t] fs IH]; cbn [map]; [reflexivity|].
  now rewrite IH.
Qed.

(** The channel [create_asyncapi] stores for a collection name. *)
Lemma add_channel_channels (filters : list filter)
  (acc : dict channel * dict operation * dict message) (coll : collection) :
  fst (fst (add_channel filters acc coll))
  = dict_set (name coll ++ "_notifications")
      {| ch_address := "collections/" ++ name coll ++ "/items/#";
         ch_description :=
           PyStr.title (PyStr.replace "_" " " (name coll))
           ++ " observation notifications";
         ch_filters := filters;
         ch_messages :=
           [ (name coll ++ "Update",
              "#/components/messages/" ++ camel (name coll) ++ "Observation") ] |}
      (fst (fst acc)).
Proof.
  destruct acc as [[channels operations] messages].
  unfold add_channel. cbn [fst]. now rewrite filters_copied.
Qed.

Lemma add_channel_operations (filters : list filter)
  (acc : dict channel * dict operation * dict message) (coll : collection) :
  snd (fst (add_channel filters acc coll))
  = dict_set ("receive" ++ camel (name coll) ++ "Update")
      {| opn_action := "receive";
         opn_channel := "#/channels/" ++ name coll ++ "_notifications";
         opn_messages :=
           [ "#/channels/" ++ name coll ++ "_notifications/messages/"
             ++ name coll ++ "Update" ] |}
      (snd (fst acc)).
Proof.
  destruct acc as [[channels operations] messages]. reflexivity.
Qed.

Lemma add_channel_messages (filters : list filter)
  (acc : dict channel * dict operation * dict message) (coll : collection) :
  snd (add_channel filters acc coll)
  = dict_set (camel (name coll) ++ "Observation") observation_message (snd acc).
Proof.
  destruct acc as [[channels operations] messages]. reflexivity.
Qed.

(** What the loop of [create_asyncapi] leaves in the three dictionaries
    for a collection of the list. *)
Lemma asyncapi_entries_of_collection (filters : list filter)
  (collections : list collection) (coll : collection) :
  In coll collections ->
  let acc := fold_left (add_channel filters) collections ([], [], []) in
  dict_get (name coll ++ "_notifications") (fst (fst acc))
  = Some {| ch_address := "collections/" ++ name coll ++ "/items/#";
            ch_description :=
              PyStr.title (PyStr.replace "_" " " (name coll))
              ++ " observation notifications";
            ch_filters := filters;
            ch_messages :=
              [ (name coll ++ "Update",
                 "#/components/messages/" ++ camel (name coll)
                 ++ "Observation") ] |}
  /\ In ("receive" ++ camel (name coll) ++ "Update") (dict_keys (snd (fst acc)))
  /\ dict_get (camel (name coll) ++ "Observation") (snd acc)
     = Some observation_message.
Proof.
  intros Hc. apply in_split in Hc. destruct Hc as (before & after & ->).
  cbv zeta. rewrite fold_left_app. cbn [fold_left].
  set (start := add_channel filters
                  (fold_left (add_channel filters) before ([], [], [])) coll).
  apply (fold_left_keep _ _ (add_channel filters)
           (fun acc =>
              dict_get (name coll ++ "_notifications") (fst (fst acc)) = Some _
              /\ In ("receive" ++ camel (name coll) ++ "Update")
                    (dict_keys (snd (fst acc)))
              /\ dict_get (camel (name coll) ++ "Observation") (snd acc)
                 = Some observation_message)).
  - intros acc c (Hch & Hop & Hmsg).
    rewrite add_channel_channels, add_channel_operations, add_channel_messages.
    split; [|split].
    + destruct (string_dec (name c ++ "_notifications")
                           (name coll ++ "_notifications")) as [E | Hne].
      * rewrite E, dict_get_set_same.
        apply append_inj_r in E. now rewrite E.
      * rewrite dict_get_set_other by (intros E; apply Hne; now rewrite E).
        exact Hch.
    + now apply dict_set_keep.
    + destruct (string_dec (camel (name c) ++ "Observation")
                           (camel (name coll) ++ "Observation")) as [E | Hne].
      * now rewrite E, dict_get_set_same.
      * rewrite dict_get_set_other by (intros E; apply Hne; now rewrite E).
        exact Hmsg.
  - unfold start.
    rewrite add_channel_channels, add_channel_operations, add_channel_messages.
    rewrite !dict_get_set_same. repeat split. apply dict_set_mem.
Qed.

(** Every operation belongs to a collection and is bound to its channel. *)
Lemma asyncapi_operations_of_collections (filters : list filter)
  (collections : list collection) :
  let acc := fold_left (add_channel filters) collections ([], [], []) in
  forall key op,
    In (key, op) (snd (fst acc)) ->
    exists coll,
      In coll collections
      /\ key = "receive" ++ camel (name coll) ++ "Update"
      /\ opn_action op = "receive"
      /\ opn_channel op = "#/channels/" ++ name coll ++ "_notifications".
Proof.
  cbv zeta.
  apply (fold_left_keep_in _ _ (add_channel filters)
           (fun acc =>
              forall key op,
                In (key, op) (snd (fst acc)) ->
                exists coll,
                  In coll collections
                  /\ key = "receive" ++ camel (name coll) ++ "Update"
                  /\ opn_action op = "receive"
                  /\ opn_channel op
                     = "#/channels/" ++ name coll ++ "_notifications")).
  - intros acc c Hc Hacc key op Hin.
    rewrite add_channel_operations in Hin. apply dict_set_entries in Hin.
    destruct Hin as [[-> ->] | Hin]; [|now apply Hacc].
    exists c. repeat split. exact Hc.
  - intros key op [].
Qed.

(** The pub/sub extension of a schema names the notification channel of a
    collection. *)
Lemma schema_pubsub_channel (base_name : string) (collections : list collection)
  (properties : list string) (key : string) (schema : feature_schema) :
  In (key, schema)
     (oa_schemas (openapi_document base_name collections properties true)) ->
  exists coll,
    In coll collections
    /\ fs_pubsub schema
       = Some ("x-ogc-edr-" ++ base_name ++ "-pubsub",
               name coll ++ "_notifications").
Proof.
  unfold openapi_document.
  assert (Hinv :
    forall k s,
      In (k, s) (snd (fold_left (add_collection base_name properties true)
                                collections ([], []))) ->
      exists coll,
        In coll collections
        /\ fs_pubsub s = Some ("x-ogc-edr-" ++ base_name ++ "-pubsub",
                               name coll ++ "_notifications")).
  { apply (fold_left_keep_in _ _ (add_collection base_name properties true)
             (fun acc =>
                forall k s,
                  In (k, s) (snd acc) ->
                  exists coll,
                    In coll collections
                    /\ fs_pubsub s
                       = Some ("x-ogc-edr-" ++ base_name ++ "-pubsub",
                               name coll ++ "_notifications"))).
    - intros [paths schemas] c Hc Hacc k s Hin.
      unfold add_collection in Hin. cbn [snd] in *.
      apply dict_set_entries in Hin.
      destruct Hin as [[-> ->] | Hin]; [|exact (Hacc _ _ Hin)].
      exists c. split; [exact Hc | reflexivity].
    - intros k s []. }
  destruct (fold_left _ collections _) as [paths schemas].
  cbn [oa_schemas snd] in *. apply Hinv.
Qed.

(** X8. In the event API description every collection has its channel
    [{name}_notifications], with the address
    [collections/{name}/items/#] and all the filters in their order, a
    receive operation under its key, and the message its channel refers
    to.  Every operation is bound to a channel that exists.  Every channel
    a schema of the HTTP API description names in its pub/sub extension is
    a channel of the event API description. *)
Theorem event_api_references_resolve :
  forall (base_name : string) (collections : list collection)
         (filters : list filter),
    let doc := asyncapi_document base_name collections filters in
    (forall coll,
        In coll collections ->
        dict_get (name coll ++ "_notifications") (aa_channels doc)
        = Some {| ch_address := "collections/" ++ name coll ++ "/items/#";
                  ch_description :=
                    PyStr.title (PyStr.replace "_" " " (name coll))
                    ++ " observation notifications";
                  ch_filters := filters;
                  ch_messages :=
                    [ (name coll ++ "Update",
                       "#/components/messages/" ++ camel (name coll)
                       ++ "Observation") ] |}
        /\ In ("receive" ++ camel (name coll) ++ "Update")
              (dict_keys (aa_operations doc))
        /\ dict_get (camel (name coll) ++ "Observation") (aa_messages doc)
           = Some observation_message)
    /\ (forall key op,
           In (key, op) (aa_operations doc) ->
           exists coll,
             In coll collections
             /\ opn_channel op = "#/channels/" ++ name coll ++ "_notifications"
             /\ In (name coll ++ "_notifications") (dict_keys (aa_channels doc)))
    /\ (forall properties key schema,
           In (key, schema)
              (oa_schemas (openapi_document base_name collections properties
                                            true)) ->
           exists extension channel_name,
             fs_pubsub schema = Some (extension, channel_name)
             /\ In channel_name (dict_keys (aa_channels doc))).
Proof.
  intros base_name collections filters.
  pose proof (asyncapi_entries_of_collection filters collections) as Hcoll.
  pose proof (asyncapi_operations_of_collections filters collections) as Hops.
  unfold asyncapi_document. cbv zeta in *.
  destruct (fold_left (add_channel filters) collections ([], [], []))
    as [[channels operations] messages].
  cbn [fst snd aa_channels aa_operations aa_messages] in *.
  assert (Hchan : forall coll,
             In coll collections ->
             In (name coll ++ "_notifications") (dict_keys channels)).
  { intros coll Hc. destruct (Hcoll coll Hc) as (Hget & _).
    apply dict_get_In in Hget. exact (in_map fst _ _ Hget). }
  split; [exact Hcoll|]. split.
  - intros key op Hin. destruct (Hops key op Hin) as (coll & Hc & _ & _ & Hch).
    exists coll. repeat split; auto.
  - intros properties key schema Hin.
    destruct (schema_pubsub_channel _ _ _ _ _ Hin) as (coll & Hc & Hps).
    do 2 eexists. split; [exact Hps | exact (Hchan coll Hc)].
Qed.

Lemma event_api_references_resolve_witness :
  In "receiveWaterGaugeUpdate"
     (dict_keys (aa_operations (asyncapi_document "water_gauge" [water_gauge] []))).
Proof.
  pose proof (event_api_references_resolve "water_gauge" [water_gauge] []) as H.
  cbv zeta in H. destruct H as (H & _).
  destruct (H water_gauge (or_introl eq_refl)) as (_ & Hop & _).
  exact Hop.
Defined.

(** ** Prompts *)

Lemma lstrip_length (s : string) :
  String.length (lstrip s) <= String.length s.
Proof.
  induction s as [|c s IH]; cbn [lstrip String.length]; [lia|].
  destruct (is_space c); cbn [String.length]; lia.
Qed.

(** A string that [lstrip] leaves alone starts with no whitespace. *)
Lemma lstrip_fixed_head (c : ascii) (s : string) :
  lstrip (String c s) = String c s -> is_space c = false.
Proof.
  cbn [lstrip]. destruct (is_space c); [|reflexivity].
  intros H. pose proof (lstrip_length s) as L. rewrite H in L.
  cbn [String.length] in L. lia.
Qed.

Lemma lstrip_head (c : ascii) (s : string) :
  is_space c = false -> lstrip (String c s) = String c s.
Proof.
  intros H. cbn [lstrip]. now rewrite H.
Qed.

Lemma rstrip_idem (s : string) : rstrip (rstrip s) = rstrip s.
Proof.
  induction s as [|c s IH]; cbn [rstrip]; [reflexivity|].
  destruct (rstrip s) as [|d r] eqn:E.
  - destruct (is_space c) eqn:S; cbn [rstrip]; [reflexivity | now rewrite S].
  - cbn [rstrip]. cbn [rstrip] in IH. now rewrite IH.
Qed.

Lemma rstrip_head (c : ascii) (s : string) :
  is_space c = false -> exists r, rstrip (String c s) = String c r.
Proof.
  intros H. cbn [rstrip]. destruct (rstrip s) as [|d r].
  - rewrite H. now exists "".
  - now exists (String d r).
Qed.

(** [strip] leaves neither leading nor trailing whitespace. *)
Lemma strip_is_stripped (s : string) :
  lstrip (strip s) = strip s /\ rstrip (strip s) = strip s.
Proof.
  unfold strip. split; [|apply rstrip_idem].
  destruct (lstrip s) as [|c t] eqn:E; [reflexivity|].
  assert (Hc : is_space c = false).
  { apply (lstrip_fixed_head c t). rewrite <- E.
    clear E. induction s as [|d s IH]; cbn [lstrip]; [reflexivity|].
    destruct (is_space d) eqn:S; [exact IH | cbn [lstrip]; now rewrite S]. }
  destruct (rstrip_head c t Hc) as (r & ->). now apply lstrip_head.
Qed.

Lemma count_char_append (a : ascii) (s t : string) :
  count_char a (s ++ t) = count_char a s + count_char a t.
Proof.
  induction s as [|c s IH]; cbn [append count_char]; [reflexivity|].
  rewrite IH. lia.
Qed.

Lemma count_char_lstrip (a : ascii) (s : string) :
  count_char a s = 0 -> count_char a (lstrip s) = 0.
Proof.
  induction s as [|c s IH]; cbn [lstrip]; intros H; [exact H|].
  destruct (is_space c); [|exact H].
  apply IH. cbn [count_char] in H. lia.
Qed.

Lemma count_char_rstrip (a : ascii) (s : string) :
  count_char a s = 0 -> count_char a (rstrip s) = 0.
Proof.
  induction s as [|c s IH]; cbn [rstrip count_char]; intros H; [reflexivity|].
  assert (Hs : count_char a s = 0) by lia.
  specialize (IH Hs).
  destruct (rstrip s) as [|d r].
  - destruct (is_space c); cbn [count_char]; lia.
  - cbn [count_char] in *. lia.
Qed.

Lemma split_comma_pieces (s : string) :
  forall cur,
    count_char "," cur = 0 ->
    Forall (fun piece => count_char "," piece = 0)
           (PyStr.split_aux "," 0 cur s).
Proof.
  induction s as [|c s IH]; intros cur Hcur; cbn [PyStr.split_aux].
  - constructor; [exact Hcur | constructor].
  - unfold PyStr.startswith. cbn [prefix].
    destruct (ascii_dec "," c) as [<- | Hne].
    + rewrite prefix_nil. cbn [String.length Nat.sub].
      constructor; [exact Hcur | now apply IH].
    + apply IH. rewrite count_char_append, Hcur. cbn [count_char].
      destruct (Ascii.eqb_spec c ","); [now subst | reflexivity].
Qed.

(** X9. Every item [prompt_list] returns is non-empty, has neither leading
    nor trailing whitespace, and contains no comma, whatever is typed and
    whatever the default is. *)
Theorem prompt_list_items_are_clean :
  forall (default : option string) (typed item : string),
    In item (prompt_list default typed) ->
    item <> ""
    /\ lstrip item = item /\ rstrip item = item
    /\ count_char "," item = 0.
Proof.
  intros default typed item. unfold prompt_list.
  set (response := match default with Some _ => _ | None => _ end).
  intros H. apply in_map_iff in H. destruct H as (piece & <- & H).
  apply filter_In in H. destruct H as [Hpiece Htruthy].
  destruct (strip_is_stripped piece) as [Hl Hr].
  repeat split; auto.
  - intros E. rewrite E in Htruthy. discriminate Htruthy.
  - unfold strip. apply count_char_rstrip, count_char_lstrip.
    pose proof (split_comma_pieces response "" eq_refl) as F.
    rewrite Forall_forall in F. exact (F _ Hpiece).
Qed.

Lemma prompt_list_items_are_clean_witness :
  In "position" (prompt_list (Some "items") "  items , position,, cube ")
  /\ lstrip "position" = "position".
Proof.
  assert (Hin : In "position"
                   (prompt_list (Some "items") "  items , position,, cube "))
    by (right; left; reflexivity).
  split; [exact Hin|].
  exact (proj1 (proj2 (prompt_list_items_are_clean _ _ _ Hin))).
Defined.

Lemma rstrip_app (a b : string) :
  rstrip b <> "" -> rstrip (a ++ b) = a ++ rstrip b.
Proof.
  intros Hb. induction a as [|c a IH]; cbn [append rstrip]; [reflexivity|].
  rewrite IH. destruct (a ++ rstrip b) as [|d r] eqn:E; [|reflexivity].
  destruct a; cbn [append] in E; [contradiction | discriminate E].
Qed.

Lemma join_cons (sep x y : string) (l : list string) :
  PyStr.join sep (x :: y :: l) = x ++ sep ++ PyStr.join sep (y :: l).
Proof. reflexivity. Qed.

Lemma join_nonempty (sep x : string) (l : list string) :
  x <> "" -> PyStr.join sep (x :: l) <> "".
Proof.
  intros Hx. destruct l as [|y l]; [exact Hx|].
  rewrite join_cons. destruct x; [contradiction | discriminate].
Qed.

Lemma rstrip_join (items : list string) :
  Forall (fun item => item <> "" /\ rstrip item = item) items ->
  rstrip (PyStr.join ", " items) = PyStr.join ", " items.
Proof.
  induction 1 as [|x xs [Hx Hr] Hxs IH]; [reflexivity|].
  destruct xs as [|y ys]; [exact Hr|].
  rewrite join_cons.
  assert (Hy : y <> "") by (inversion Hxs; tauto).
  assert (Hj : rstrip (", " ++ PyStr.join ", " (y :: ys))
               = ", " ++ PyStr.join ", " (y :: ys)).
  { rewrite rstrip_app; rewrite IH; [reflexivity|].
    now apply join_nonempty. }
  rewrite rstrip_app; rewrite Hj; [reflexivity | discriminate].
Qed.

Lemma split_comma_free_prefix (x : string) :
  forall cur s,
    count_char "," x = 0 ->
    PyStr.split_aux "," 0 cur (x ++ s) = PyStr.split_aux "," 0 (cur ++ x) s.
Proof.
  induction x as [|c x IH]; intros cur s H; cbn [append].
  - now rewrite append_nil_r.
  - cbn [count_char] in H.
    destruct (Ascii.eqb_spec c ",") as [-> | Hne]; [discriminate H|].
    cbn [PyStr.split_aux]. unfold PyStr.startswith. cbn [prefix].
    destruct (ascii_dec "," c) as [<- | _]; [now elim Hne|].
    rewrite IH by exact H. now rewrite append_assoc.
Qed.

Lemma split_join (xs : list string) :
  forall x cur,
    Forall (fun item => count_char "," item = 0) (x :: xs) ->
    PyStr.split_aux "," 0 cur (PyStr.join ", " (x :: xs))
    = (cur ++ x) :: map (fun y => " " ++ y) xs.
Proof.
  induction xs as [|y ys IH]; intros x cur H.
  - cbn [PyStr.join map]. apply split_aux_absent.
    inversion H as [|? ? Hx _]; subst. clear H.
    induction x as [|c x IHx]; [reflexivity|].
    cbn [count_char] in Hx. cbn [PyStr.contains].
    destruct (Ascii.eqb_spec c ",") as [-> | Hne]; [discriminate Hx|].
    rewrite (IHx Hx), Bool.orb_false_r.
    unfold PyStr.startswith. cbn [prefix].
    destruct (ascii_dec "," c) as [<- | _]; [now elim Hne | reflexivity].
  - rewrite join_cons.
    inversion H as [|? ? Hx Hrest]; subst.
    rewrite split_comma_free_prefix by exact Hx.
    change (", " ++ PyStr.join ", " (y :: ys))
      with ("," ++ String " " (PyStr.join ", " (y :: ys))).
    rewrite split_aux_hit. cbn [map]. f_equal.
    change (PyStr.split_aux "," 0 "" (String " " (PyStr.join ", " (y :: ys))))
      with (PyStr.split_aux "," 0 " " (PyStr.join ", " (y :: ys))).
    exact (IH y " " Hrest).
Qed.

(** X10. Typing a list the way the generated documents print it (the items
    joined by a comma and a space) gives the list back, when the list is
    not empty and its items are non-empty, without leading or trailing
    whitespace and without commas. *)
Theorem prompt_list_reads_joined_list :
  forall (default : option string) (items : list string),
    items <> [] ->
    Forall (fun item => item <> ""
                        /\ lstrip item = item /\ rstrip item = item
                        /\ count_char "," item = 0) items ->
    prompt_list default (PyStr.join ", " items) = items.
Proof.
  intros default [|x xs] Hne Hclean; [now elim Hne|]. clear Hne.
  assert (Hx : x <> "" /\ lstrip x = x) by (inversion Hclean; tauto).
  assert (Hstrip : strip (PyStr.join ", " (x :: xs)) = PyStr.join ", " (x :: xs)).
  { unfold strip.
    assert (Hl : lstrip (PyStr.join ", " (x :: xs)) = PyStr.join ", " (x :: xs)).
    { destruct Hx as [Hx Hlx]. destruct x as [|c x]; [contradiction|].
      apply lstrip_fixed_head in Hlx.
      destruct xs; [|rewrite join_cons]; now apply lstrip_head. }
    rewrite Hl. apply rstrip_join.
    apply (Forall_impl _ (P := fun item =>
             item <> "" /\ lstrip item = item /\ rstrip item = item
             /\ count_char "," item = 0)); [tauto | exact Hclean]. }
  assert (Htruthy : truthy (PyStr.join ", " (x :: xs)) = true).
  { pose proof (join_nonempty ", " x xs (proj1 Hx)) as Hj.
    destruct (PyStr.join ", " (x :: xs)); [contradiction | reflexivity]. }
  unfold prompt_list. cbv zeta.
  assert (Hresponse :
            match default with
            | Some d =>
                if truthy d
                then if truthy (strip (PyStr.join ", " (x :: xs)))
                     then strip (PyStr.join ", " (x :: xs)) else d
                else strip (PyStr.join ", " (x :: xs))
            | None => strip (PyStr.join ", " (x :: xs))
            end = PyStr.join ", " (x :: xs)).
  { destruct default as [d|]; [destruct (truthy d)|];
      rewrite Hstrip, ?Htruthy; reflexivity. }
  rewrite Hresponse, split_join; cbn [append].
  - assert (Hitem : forall item,
               item <> "" /\ lstrip item = item /\ rstrip item = item
               /\ count_char "," item = 0 ->
               strip item = item /\ truthy (strip item) = true).
    { intros item (Hi & Hl & Hr & _). unfold strip. rewrite Hl, Hr.
      split; [reflexivity|]. destruct item; [contradiction | reflexivity]. }
    inversion Hclean as [|? ? Hcx Hcxs]; subst.
    destruct (Hitem x Hcx) as [Sx Tx].
    cbn [List.filter]. rewrite Tx. cbn [map]. rewrite Sx. f_equal.
    clear - Hcxs Hitem. induction Hcxs as [|y ys Hy Hys IH]; [reflexivity|].
    destruct (Hitem y Hy) as [Sy Ty].
    assert (E : strip (String " " y) = strip y) by reflexivity.
    cbn [map List.filter append]. rewrite E, Ty. cbn [map]. rewrite E, Sy.
    now rewrite IH.
  - apply (Forall_impl _ (P := fun item =>
             item <> "" /\ lstrip item = item /\ rstrip item = item
             /\ count_char "," item = 0)); [tauto | exact Hclean].
Qed.

Lemma prompt_list_reads_joined_list_witness :
  prompt_list (Some "items") "items, position" = ["items"; "position"].
Proof.
  apply (prompt_list_reads_joined_list (Some "items") ["items"; "position"]).
  - discriminate.
  - repeat constructor; discriminate.
Defined.

Lemma prompt_list_item_nonempty (default : option string) (typed item : string) :
  In item (prompt_list default typed) -> item <> "".
Proof.
  unfold prompt_list. intros H. apply in_map_iff in H.
  destruct H as (piece & <- & H). apply filter_In in H.
  destruct H as [_ H]. intros E. rewrite E in H. discriminate H.
Qed.

(** X11. A collection entered interactively always has at least one query
    type and one format, none of them empty: an answer that is blank, or
    that holds only commas and whitespace, gives [items] and [GeoJSON];
    with a non-empty default name, the name is not empty either. *)
Theorem interactive_collection_is_never_empty :
  forall default_name typed_name typed_query_types typed_formats : string,
    let coll := interactive_collection default_name typed_name
                  typed_query_types typed_formats in
    query_types coll <> []
    /\ formats coll <> []
    /\ Forall (fun item => item <> "") (query_types coll)
    /\ Forall (fun item => item <> "") (formats coll)
    /\ (default_name <> "" -> name coll <> "")
    /\ (prompt_list None typed_query_types = [] -> query_types coll = ["items"])
    /\ (prompt_list None typed_formats = [] -> formats coll = ["GeoJSON"]).
Proof.
  intros default_name typed_name typed_query_types typed_formats.
  unfold interactive_collection. cbv zeta. cbn [name query_types formats].
  assert (Hlist : forall d typed fallback,
             fallback <> "" ->
             match prompt_list (Some d) typed with
             | [] => [fallback]
             | _ :: _ => prompt_list (Some d) typed
             end <> []
             /\ Forall (fun item => item <> "")
                       match prompt_list (Some d) typed with
                       | [] => [fallback]
                       | _ :: _ => prompt_list (Some d) typed
                       end).
  { intros d typed fallback Hf.
    destruct (prompt_list (Some d) typed) as [|x xs] eqn:E.
    - split; [discriminate | now repeat constructor].
    - split; [discriminate|]. rewrite <- E. apply Forall_forall.
      intros item Hin. exact (prompt_list_item_nonempty _ _ _ Hin). }
  assert (Hblank : forall d typed fallback,
             d <> "" ->
             map strip (List.filter (fun item => truthy (strip item))
                                    (PyStr.split_aux "," 0 "" d)) = [fallback] ->
             prompt_list None typed = [] ->
             match prompt_list (Some d) typed with
             | [] => [fallback]
             | _ :: _ => prompt_list (Some d) typed
             end = [fallback]).
  { intros d typed fallback Hd Hparse H.
    assert (Hcases : prompt_list (Some d) typed = prompt_list None typed
                     \/ prompt_list (Some d) typed = [fallback]
                        /\ strip typed = "").
    { unfold prompt_list. destruct d as [|c d]; [contradiction|].
      cbn [truthy]. cbv zeta.
      destruct (strip typed) as [|e r] eqn:E; cbn [truthy]; [|now left].
      right. split; [exact Hparse | reflexivity]. }
    destruct Hcases as [-> | [-> _]]; [now rewrite H | reflexivity]. }
  destruct (Hlist "items" typed_query_types "items") as [Hq1 Hq2];
    [discriminate|].
  destruct (Hlist "GeoJSON" typed_formats "GeoJSON") as [Hf1 Hf2];
    [discriminate|].
  split; [exact Hq1|]. split; [exact Hf1|].
  split; [exact Hq2|]. split; [exact Hf2|].
  split; [|split].
  - intros Hd. unfold prompt. destruct default_name as [|c d]; [now elim Hd|].
    cbn [truthy]. cbv zeta.
    destruct (strip typed_name); cbn [truthy]; discriminate.
  - apply Hblank; [discriminate | reflexivity].
  - apply Hblank; [discriminate | reflexivity].
Qed.

Lemma interactive_collection_is_never_empty_witness :
  query_types (interactive_collection "water_gauge" "" " , " "CSV") = ["items"]
  /\ name (interactive_collection "water_gauge" "" " , " "CSV") <> "".
Proof.
  pose proof (interactive_collection_is_never_empty "water_gauge" "" " , " "CSV")
    as H.
  cbv zeta in H. destruct H as (_ & _ & _ & _ & Hname & Hq & _).
  split; [apply Hq; reflexivity | apply Hname; discriminate].
Defined.

(** ** The run on a complete configuration *)

Lemma complete_collections_are_readable (colls : list raw_collection) :
  forallb complete_collection colls = true ->
  (exists cs, mapM openapi_view colls = Ok cs)
  /\ (exists us, mapM text_view colls = Ok us).
Proof.
  induction colls as [|rc colls IH]; cbn [forallb mapM]; intros H.
  - split; eexists; reflexivity.
  - apply Bool.andb_true_iff in H. destruct H as [Hrc H].
    destruct (IH H) as [(cs & ->) (us & ->)].
    unfold complete_collection in Hrc. unfold openapi_view, text_view.
    destruct (rc_name rc), (rc_query_types rc), (rc_formats rc);
      try discriminate Hrc.
    split; eexists; reflexivity.
Qed.

Lemma profile_adoc_is_not_asyncapi (x : string) :
  x ++ "_profile.adoc" <> "asyncapi.yaml".
Proof.
  intros E. pose proof (f_equal String.length E) as L.
  rewrite string_length_append in L. cbn [String.length] in L.
  destruct x; [discriminate E | cbn [String.length] in L; lia].
Qed.

(** The run when every collection record can be read. *)
Lemma main_generate_readable
  (pn pt : string) (colls : list raw_collection) (props : list string)
  (fs : list filter) (inc : bool) (reqs : list requirement) (ts : list test)
  (cs : list collection) (us : list unit) :
  mapM openapi_view colls = Ok cs ->
  mapM text_view colls = Ok us ->
  main_generate
    {| cfg_profile_name := Some pn; cfg_profile_title := Some pt;
       cfg_collections := Some colls; cfg_properties := Some props;
       cfg_filters := Some fs; cfg_include_asyncapi := Some inc;
       cfg_requirements := Some reqs; cfg_tests := Some ts |}
  = ((map Mkdir (profile_directories pn)
      ++ map FileWritten (requirement_and_test_files pn reqs ts
                          ++ api_and_main_files pn inc
                          ++ documentation_files pn))%list,
     Ok tt).
Proof.
  intros Hview Htext.
  unfold main_generate, requirement_and_test_files, api_and_main_files,
    documentation_files.
  cbn [cfg_profile_name cfg_profile_title cfg_collections cfg_properties
       cfg_filters cfg_include_asyncapi cfg_requirements cfg_tests getitem].
  unfold lift. rewrite !io_bind_ret_l.
  rewrite <- !app_assoc.
  eapply io_bind_step; [reflexivity|].
  rewrite map_app, map_map.
  eapply io_bind_step;
    [apply (io_iter_write _ (fun req => create_requirement pn (r_id req)
                                          (r_statement req) (r_parts req)))|].
  rewrite map_app.
  eapply io_bind_step; [reflexivity|].
  rewrite map_app, map_map.
  eapply io_bind_step;
    [apply (io_iter_write _ (fun t => create_abstract_test pn (t_id t)
                                        (t_req_id t) (t_steps t)))|].
  rewrite map_app.
  eapply io_bind_step; [reflexivity|].
  rewrite map_app.
  eapply io_bind_step;
    [unfold create_openapi, lift; rewrite Hview; reflexivity|].
  rewrite map_app.
  eapply io_bind_step.
  { destruct inc; [|reflexivity].
    unfold create_asyncapi, lift.
    rewrite (openapi_view_names _ _ Hview). reflexivity. }
  rewrite map_app.
  eapply io_bind_step; [reflexivity|].
  rewrite map_app, map_map.
  eapply io_bind_step.
  { unfold create_sections, lift. rewrite Htext, io_bind_ret_l.
    apply (io_iter_write _
             (fun filename => {| file_path := [pn; "sections"; filename];
                                 file_content := Document "section" |})). }
  unfold create_supporting_files, save_config, lift.
  rewrite Htext. reflexivity.
Qed.

Lemma files_written_of_log (dirs : list (list string)) (files : list file) :
  files_written (map Mkdir dirs ++ map FileWritten files)%list = files.
Proof.
  unfold files_written. rewrite flat_map_app.
  assert (Hdirs : flat_map (fun e => match e with
                                     | FileWritten f => [f]
                                     | Mkdir _ => []
                                     end) (map Mkdir dirs) = []).
  { induction dirs as [|d dirs IH]; cbn [map flat_map app]; [reflexivity|].
    exact IH. }
  rewrite Hdirs. cbn [app].
  induction files as [|f files IH]; cbn [map flat_map app]; [reflexivity|].
  now rewrite IH.
Qed.



(** ** Include lines *)

Lemma fold_left_append (A : Type) (f : A -> string) (l : list A) :
  forall acc,
    fold_left (fun acc a => acc ++ f a) l acc
    = acc ++ String.concat "" (map f l).
Proof.
  induction l as [|a l IH]; intros acc; cbn [fold_left map].
  - cbn [String.concat]. now rewrite append_nil_r.
  - rewrite IH, append_assoc. f_equal.
    destruct l as [|b l]; cbn [map String.concat]; [now rewrite append_nil_r|].
    reflexivity.
Qed.

(** X13. The include lines of the generated sections name the files the
    run writes: the requirements text has one line per requirement, in
    order, with the path, below the profile directory, of the file
    [create_requirement] writes for it, and the test includes do the same
    for the files [create_abstract_test] writes. *)
Theorem include_lines_name_written_files :
  forall (base : string) (requirements : list requirement) (tests : list test),
    requirements_text requirements
    = String.concat ""
        (map (fun f => "include::../" ++ PyStr.join "/" (tl (file_path f))
                       ++ "[]" ++ nl ++ nl)
             (map (fun req => create_requirement base (r_id req)
                                (r_statement req) (r_parts req))
                  requirements))
    /\ test_includes tests
       = PyStr.join nl
           (map (fun f => "include::../" ++ PyStr.join "/" (tl (file_path f))
                          ++ "[]")
                (map (fun t => create_abstract_test base (t_id t) (t_req_id t)
                                 (t_steps t))
                     tests)).
Proof.
  intros base requirements tests. split.
  - unfold requirements_text.
    rewrite (fold_left_append _
               (fun req => "include::../requirements/core/REQ_" ++ r_id req
                           ++ ".adoc[]" ++ nl ++ nl)).
    cbn [append]. rewrite map_map. f_equal. apply map_ext. intros req.
    unfold create_requirement. cbn [file_path tl PyStr.join append].
    now rewrite !append_assoc.
  - unfold test_includes. rewrite map_map. f_equal. apply map_ext. intros t.
    unfold create_abstract_test. cbn [file_path tl PyStr.join append].
    now rewrite !append_assoc.
Qed.

(** ** Characters an anchor never has *)

Lemma count_char_subst (a b : ascii) (s : string) :
  a <> b -> count_char a (subst_char a b s) = 0.
Proof.
  intros Hab. induction s as [|c s IH]; cbn [subst_char count_char];
    [reflexivity|].
  rewrite IH.
  destruct (Ascii.eqb_spec c a) as [-> | Hc].
  - destruct (Ascii.eqb_spec b a) as [-> | _]; [now elim Hab | reflexivity].
  - destruct (Ascii.eqb_spec c a); [contradiction | reflexivity].
Qed.

(** X14. Whatever the profile name and the id are, the requirement anchor
    and the test anchor contain no path separator, and the
    requirements-class anchor contains no dash. *)
Theorem anchors_are_free_of_separators :
  forall base_name local_id : string,
    count_char "/" (requirement_anchor base_name local_id) = 0
    /\ count_char "/" (abstract_test_anchor base_name local_id) = 0
    /\ count_char "-" (requirements_class_anchor base_name local_id) = 0.
Proof.
  intros base_name local_id.
  unfold requirement_anchor, abstract_test_anchor, requirements_class_anchor.
  rewrite !replace_char.
  repeat split; apply count_char_subst; discriminate.
Qed.

(** ** The locations paths *)

(** X15. For a configuration whose one collection has the query types
    [locations] exactly, the paths are the collection-metadata path, the
    list of locations, which takes no parameter, and the path by
    location, with the required path parameter [locationId] and a
    [datetime] parameter. *)
Theorem locations_collection_paths :
  forall (base_name collection_name : string) (fmts properties : list string)
         (include_asyncapi : bool),
    let spec :=
      openapi_document base_name
        [ {| name := collection_name; query_types := ["locations"];
             formats := fmts |} ]
        properties include_asyncapi in
    dict_keys (oa_paths spec)
    = [ "/collections/" ++ collection_name;
        "/collections/" ++ collection_name ++ "/locations";
        "/collections/" ++ collection_name ++ "/locations/{locationId}" ]
    /\ option_map op_parameters
         (dict_get ("/collections/" ++ collection_name ++ "/locations")
                   (oa_paths spec))
       = Some None
    /\ option_map op_parameters
         (dict_get ("/collections/" ++ collection_name ++ "/locations/{locationId}")
                   (oa_paths spec))
       = Some (Some [
           {| p_name := "locationId"; p_in := "path"; p_required := true |};
           {| p_name := "datetime"; p_in := "query"; p_required := false |} ]).
Proof.
  intros base_name collection_name fmts properties include_asyncapi.
  cbn -[PyStr.replace PyStr.title String.eqb append add_query_type_paths
        dict_get].
  unfold add_query_type_paths.
  change (String.eqb "locations" "items") with false.
  rewrite String.eqb_refl. cbn iota.
  cbn [dict_set].
  rewrite !eqb_append_l, eqb_append_self.
  cbn [dict_set].
  rewrite !eqb_append_l, eqb_append_self.
  change (String.eqb "/locations/{locationId}" "/locations") with false.
  cbn iota. cbn [dict_keys map fst dict_get].
  rewrite !eqb_append_l, !eqb_append_self, !String.eqb_refl.
  change (String.eqb "/locations" "/locations/{locationId}") with false.
  change (String.eqb "/locations/{locationId}" "/locations") with false.
  repeat split.
Qed.
